(** * Sleep-health analysis: a shallow embedding and its properties

    The development follows the repository's modules:

    - [web_app/app.py]            risk heuristics (pure threshold rules);
    - [src/data/data_loader.py]   synthetic generator and CSV loader;
    - [src/etl/transformer.py]    cleaning and feature engineering;
    - [src/analysis/analyzer.py]  grouped means and anomaly detection.

    Numbers.  Python floats are idealised as rationals [Q]: every comparison
    in the program is against an exactly representable constant, and the
    arithmetic that matters (sums, means, differences) is stated over the
    exact values.  A pandas cell that may hold NaN/NaT is an [option]:
    [None] is the missing marker. *)

From Stdlib Require Import ZArith QArith Qabs Qround Qminmax Reals Qreals.
From Stdlib Require Import List Bool Lia Psatz String Sorted SetoidList.
Import ListNotations.
Local Open Scope Q_scope.

(** ** Python comparisons on numbers *)

Definition Qltb (x y : Q) : bool := negb (Qle_bool y x).
Definition Qgtb (x y : Q) : bool := Qltb y x.
Definition Qgeb (x y : Q) : bool := Qle_bool y x.

(** ** Risk heuristics ([web_app/app.py]) *)

Module Risk.

(** The penalty each factor adds to [risk_score], in source order. *)
Definition duration_risk (d : Q) : Z :=
  if Qltb d 6 then 30 else if Qltb d 7 then 15 else if Qgtb d 9 then 10 else 0.

Definition quality_risk (q : Q) : Z :=
  if Qltb q 60 then 25 else if Qltb q 75 then 15 else 0.

Definition deep_risk (p : Q) : Z := if Qltb p 15 then 20 else 0.

Definition rem_risk (p : Q) : Z := if Qltb p 20 then 15 else 0.

Definition age_risk (a : Q) : Z :=
  if Qgeb a 60 then 20 else if Qgeb a 45 then 10 else 0.

Definition stress_risk (s : Q) : Z :=
  if Qgeb s 8 then 25 else if Qgeb s 6 then 15 else 0.

Definition heart_risk (h : Q) : Z :=
  if Qgtb h 75 then 15 else if Qltb h 55 then 10 else 0.

Definition calculate_health_risk_score
    (sleep_duration quality_score deep_sleep_pct rem_sleep_pct
     age stress_level heart_rate : Q) : Z :=
  let risk_score := 0%Z in
  let risk_score := (risk_score + duration_risk sleep_duration)%Z in
  let risk_score := (risk_score + quality_risk quality_score)%Z in
  let risk_score := (risk_score + deep_risk deep_sleep_pct)%Z in
  let risk_score := (risk_score + rem_risk rem_sleep_pct)%Z in
  let risk_score := (risk_score + age_risk age)%Z in
  let risk_score := (risk_score + stress_risk stress_level)%Z in
  let risk_score := (risk_score + heart_risk heart_rate)%Z in
  Z.min 100 risk_score.

(** [conditions.append] in evaluation order. *)
Definition append_if (b : bool) (s : string) (l : list string) : list string :=
  if b then l ++ [s] else l.

Definition predict_health_conditions
    (sleep_duration quality_score deep_sleep_pct rem_sleep_pct
     age stress_level heart_rate : Q) : list string :=
  let conditions := [] in
  let conditions :=
    append_if (Qltb sleep_duration 6 && Qgtb heart_rate 70)
      "Increased cardiovascular risk" conditions in
  let conditions :=
    append_if (Qltb sleep_duration 6 || Qgtb sleep_duration 9)
      "Metabolic disorder risk" conditions in
  let conditions :=
    append_if (Qltb deep_sleep_pct 15 || Qltb rem_sleep_pct 20)
      "Cognitive decline risk" conditions in
  let conditions :=
    append_if (Qgtb stress_level 7 && Qltb quality_score 70)
      "Mental health vulnerability" conditions in
  let conditions :=
    append_if (Qgtb age 50 && Qltb deep_sleep_pct 18)
      "Age-related sleep disorder risk" conditions in
  conditions.

Definition duration_impact (d : Q) : Q :=
  if Qltb d 6 then -(3) else if Qltb d 7 then -(3#2)
  else if Qgtb d 9 then -(1) else 0.

Definition quality_impact (q : Q) : Q :=
  if Qltb q 60 then -(2) else if Qltb q 75 then -(1) else 0.

Definition stress_impact (s : Q) : Q := if Qgtb s 7 then -(2) else 0.

Definition age_factor (age : Q) : Q :=
  if Qgtb age 30 then 1 + (age - 30) / 100 else 1.

Definition estimate_life_expectancy_impact
    (sleep_duration quality_score stress_level age : Q) : Q :=
  let base_impact := 0 in
  let base_impact := base_impact + duration_impact sleep_duration in
  let base_impact := base_impact + quality_impact quality_score in
  let base_impact := base_impact + stress_impact stress_level in
  base_impact * age_factor age.

Definition get_recommendations
    (sleep_duration quality_score deep_sleep_pct rem_sleep_pct
     stress_level : Q) : list string :=
  let recommendations := [] in
  let recommendations :=
    append_if (Qltb sleep_duration 7)
      "🕒 Increase sleep duration to at least 7 hours" recommendations in
  let recommendations :=
    append_if (Qltb quality_score 75)
      "🛏️ Improve sleep quality through better sleep hygiene" recommendations in
  let recommendations :=
    append_if (Qgtb stress_level 6)
      "🧘‍♀️ Implement stress management techniques" recommendations in
  let recommendations :=
    append_if (Qltb deep_sleep_pct 15)
      "💪 Focus on improving deep sleep through exercise" recommendations in
  let recommendations :=
    append_if (Qltb rem_sleep_pct 20)
      "⏰ Improve REM sleep by maintaining regular sleep patterns" recommendations in
  recommendations.

End Risk.

(** ** Python exceptions and results *)

(** An exception object: its class name, its message ([str(e)]) and the
    exception that was being handled when it was raised ([__context__]).
    [Exn] is an instance of a class that derives from [Exception];
    [BaseExn] is an instance of a class that derives from [BaseException]
    only (KeyboardInterrupt, SystemExit, GeneratorExit and the like). *)
#[warnings="-register-all"]
Inductive exn : Type :=
  | Exn (cls : string) (msg : string) (context : option exn)
  | BaseExn (cls : string) (msg : string) (context : option exn).

Definition exn_class (e : exn) : string :=
  match e with Exn c _ _ | BaseExn c _ _ => c end.
Definition str (e : exn) : string :=
  match e with Exn _ m _ | BaseExn _ m _ => m end.
Definition exn_context (e : exn) : option exn :=
  match e with Exn _ _ c | BaseExn _ _ c => c end.

(** [except Exception] catches the instances of the classes that derive
    from [Exception], and no other. *)
Definition isinstance_Exception (e : exn) : bool :=
  match e with Exn _ _ _ => true | BaseExn _ _ _ => false end.

Inductive result (A : Type) : Type :=
  | Ok (a : A)
  | Raise (e : exn).
Arguments Ok {A} a.
Arguments Raise {A} e.

(** ** The table ([pandas.DataFrame] over the Observation schema) *)

(** A float64 cell; [None] is NaN. *)
Definition cell := option Q.

Definition cell_map (f : Q -> Q) (c : cell) : cell :=
  match c with Some x => Some (f x) | None => None end.

Definition cell_map2 (f : Q -> Q -> Q) (a b : cell) : cell :=
  match a, b with Some x, Some y => Some (f x y) | _, _ => None end.

(** Python's [==] on floats is numeric; two NaN cells count as equal where
    pandas compares rows for duplicates. *)
Definition cell_eqb (a b : cell) : bool :=
  match a, b with
  | Some x, Some y => Qeq_bool x y
  | None, None => true
  | _, _ => false
  end.

(** One observation.  [date] is a datetime64 cell, kept as the day number
    counted from 1970-01-01; [None] is NaT. *)
Record Row := mkRow {
  date            : option Z;
  sleep_duration  : cell;
  quality_score   : cell;
  bedtime         : cell;
  wake_time       : cell;
  activity_level  : cell;
  stress_level    : cell;
  heart_rate      : cell;
  deep_sleep_pct  : cell;
  rem_sleep_pct   : cell;
  light_sleep_pct : cell
}.

Definition Table := list Row.

(** The numeric columns, as [select_dtypes(include=[np.number])] lists them. *)
Definition numeric_cells (r : Row) : list cell :=
  [sleep_duration r; quality_score r; bedtime r; wake_time r;
   activity_level r; stress_level r; heart_rate r; deep_sleep_pct r;
   rem_sleep_pct r; light_sleep_pct r].

Definition date_eqb (a b : option Z) : bool :=
  match a, b with
  | Some x, Some y => Z.eqb x y
  | None, None => true
  | _, _ => false
  end.

Definition row_eqb (r s : Row) : bool :=
  date_eqb (date r) (date s) &&
  forallb (fun p => cell_eqb (fst p) (snd p))
          (combine (numeric_cells r) (numeric_cells s)).

(** ** Data loader ([src/data/data_loader.py]) *)

Module Loader.

(** *** SleepDataGenerator *)

(** [datetime(2025, 1, 1)] as a day number. *)
Definition start_date : Z := 20089.

(** A [datetime] lies between 0001-01-01 and 9999-12-31. *)
Definition datetime_min : Z := -719162.
Definition datetime_max : Z := 2932896.

(** [d + timedelta(days=x)]: a date out of the range of [datetime] is
    refused. *)
Definition add_days (d x : Z) : result Z :=
  if ((d + x <? datetime_min) || (datetime_max <? d + x))%Z
  then Raise (Exn "OverflowError" "date value out of range" None)
  else Ok (d + x)%Z.

(** A list comprehension: the elements in order, up to the first one that
    raises. *)
Fixpoint comprehension {A B} (f : A -> result B) (l : list A)
    : result (list B) :=
  match l with
  | [] => Ok []
  | x :: xs =>
      match f x with
      | Raise e => Raise e
      | Ok y =>
          match comprehension f xs with
          | Raise e => Raise e
          | Ok ys => Ok (y :: ys)
          end
      end
  end.

Definition np_clip (x lo hi : Q) : Q := Qmin (Qmax x lo) hi.

(** [np.mod] on floats: the result has the sign of the divisor. *)
Definition np_mod (x m : Q) : Q := x - m * inject_Z (Qfloor (x / m)).

Section Generator.

(** numpy's global generator: its state, [np.random.seed] and one draw of
    [np.random.normal(loc, scale)]. *)
Variable RNG : Type.
Variable np_random_seed : Z -> RNG.
Variable normal : Q -> Q -> RNG -> Q * RNG.

(** Code that reads and advances the global generator and may raise. *)
Definition M (A : Type) : Type := RNG -> result (A * RNG).

Definition ret {A} (a : A) : M A := fun g => Ok (a, g).

Definition bind {A B} (m : M A) (k : A -> M B) : M B :=
  fun g => match m g with
           | Ok (a, g') => k a g'
           | Raise e => Raise e
           end.

Definition raise {A} (e : exn) : M A := fun _ => Raise e.

(** Code that does not touch the generator. *)
Definition lift {A} (r : result A) : M A :=
  fun g => match r with Ok a => Ok (a, g) | Raise e => Raise e end.

Notation "x <- m ;; k" := (bind m (fun x => k))
  (at level 61, m at next level, right associativity).

Fixpoint draws (loc scale : Q) (n : nat) (g : RNG) : list Q * RNG :=
  match n with
  | O => ([], g)
  | S k =>
      let (x, g1) := normal loc scale g in
      let (xs, g2) := draws loc scale k g1 in
      (x :: xs, g2)
  end.

(** [np.random.normal(loc, scale, size)]: a negative size is refused. *)
Definition np_random_normal (loc scale : Q) (size : Z) : M (list Q) :=
  if (size <? 0)%Z
  then raise (Exn "ValueError" "negative dimensions are not allowed" None)
  else fun g => Ok (draws loc scale (Z.to_nat size) g).

Record SleepDataGenerator := mkGenerator { n_samples : Z }.

(** [__init__]: stores [n_samples] and reseeds the global generator. *)
Definition init (n_samples : Z) : M SleepDataGenerator :=
  fun _ => Ok (mkGenerator n_samples, np_random_seed 42).

(** [range(n)] *)
Definition range (n : Z) : list Z := map Z.of_nat (seq 0 (Z.to_nat n)).

(** The columns of the dictionary handed to [pd.DataFrame]. *)
Record Columns := mkColumns {
  c_date           : list Z;
  c_sleep_duration : list Q;
  c_quality_score  : list Q;
  c_bedtime        : list Q;
  c_activity_level : list Q;
  c_stress_level   : list Q;
  c_heart_rate     : list Q;
  c_deep_sleep_pct : list Q;
  c_rem_sleep_pct  : list Q
}.

Definition same_length (c : Columns) : bool :=
  let n := List.length (c_date c) in
  forallb (fun l : list Q => Nat.eqb (List.length l) n)
    [c_sleep_duration c; c_quality_score c; c_bedtime c; c_activity_level c;
     c_stress_level c; c_heart_rate c; c_deep_sleep_pct c; c_rem_sleep_pct c].

(** Row [i] of the frame; [wake_time] and [light_sleep_pct] start as [None]. *)
Definition row_at (c : Columns) (i : nat) : Row :=
  {| date := Some (nth i (c_date c) 0%Z);
     sleep_duration := Some (nth i (c_sleep_duration c) 0);
     quality_score := Some (nth i (c_quality_score c) 0);
     bedtime := Some (nth i (c_bedtime c) 0);
     wake_time := None;
     activity_level := Some (nth i (c_activity_level c) 0);
     stress_level := Some (nth i (c_stress_level c) 0);
     heart_rate := Some (nth i (c_heart_rate c) 0);
     deep_sleep_pct := Some (nth i (c_deep_sleep_pct c) 0);
     rem_sleep_pct := Some (nth i (c_rem_sleep_pct c) 0);
     light_sleep_pct := None |}.

(** [pd.DataFrame(data)]: arrays of unequal length are refused. *)
Definition DataFrame (c : Columns) : M Table :=
  if same_length c
  then ret (map (row_at c) (seq 0 (List.length (c_date c))))
  else raise (Exn "ValueError" "All arrays must be of the same length" None).

Definition set_wake_time (r : Row) : Row :=
  {| date := date r; sleep_duration := sleep_duration r;
     quality_score := quality_score r; bedtime := bedtime r;
     wake_time :=
       cell_map (fun x => np_mod x 24)
                (cell_map2 Qplus (bedtime r) (sleep_duration r));
     activity_level := activity_level r; stress_level := stress_level r;
     heart_rate := heart_rate r; deep_sleep_pct := deep_sleep_pct r;
     rem_sleep_pct := rem_sleep_pct r; light_sleep_pct := light_sleep_pct r |}.

Definition set_light_sleep_pct (r : Row) : Row :=
  {| date := date r; sleep_duration := sleep_duration r;
     quality_score := quality_score r; bedtime := bedtime r;
     wake_time := wake_time r;
     activity_level := activity_level r; stress_level := stress_level r;
     heart_rate := heart_rate r; deep_sleep_pct := deep_sleep_pct r;
     rem_sleep_pct := rem_sleep_pct r;
     light_sleep_pct :=
       cell_map2 Qminus
         (cell_map (fun d => 100 - d) (deep_sleep_pct r)) (rem_sleep_pct r) |}.

Definition clip_row (r : Row) : Row :=
  {| date := date r;
     sleep_duration := cell_map (fun x => np_clip x 4 12) (sleep_duration r);
     quality_score := cell_map (fun x => np_clip x 0 100) (quality_score r);
     bedtime := bedtime r;
     wake_time := wake_time r;
     activity_level := cell_map (fun x => np_clip x 0 120) (activity_level r);
     stress_level := cell_map (fun x => np_clip x 0 10) (stress_level r);
     heart_rate := cell_map (fun x => np_clip x 45 85) (heart_rate r);
     deep_sleep_pct := deep_sleep_pct r;
     rem_sleep_pct := rem_sleep_pct r;
     light_sleep_pct := light_sleep_pct r |}.

Definition _apply_constraints (df : Table) : Table := map clip_row df.

(** Row [i] of the table a call returns, in terms of the drawn columns. *)
Definition finish (c : Columns) (i : nat) : Row :=
  clip_row (set_light_sleep_pct (set_wake_time (row_at c i))).

Definition generate_data (self : SleepDataGenerator) : M Table :=
  dates <- lift (comprehension (add_days start_date)
                                (range (n_samples self))) ;;
  sd <- np_random_normal (15#2) (3#2) (n_samples self) ;;
  qs <- np_random_normal 75 15 (n_samples self) ;;
  bt <- np_random_normal 23 (3#2) (n_samples self) ;;
  al <- np_random_normal 45 20 (n_samples self) ;;
  sl <- np_random_normal 5 2 (n_samples self) ;;
  hr <- np_random_normal 65 5 (n_samples self) ;;
  dp <- np_random_normal 20 5 (n_samples self) ;;
  rp <- np_random_normal 25 5 (n_samples self) ;;
  df <- DataFrame (mkColumns dates sd qs bt al sl hr dp rp) ;;
  let df := map set_wake_time df in
  let df := map set_light_sleep_pct df in
  ret (_apply_constraints df).

(** One run of the generator: [SleepDataGenerator(n).generate_data()]. *)
Definition run_generator (n : Z) : M Table :=
  self <- init n ;; generate_data self.

End Generator.

(** *** SleepDataLoader *)

Section CsvLoader.

(** [pd.read_csv(filepath, parse_dates=['date'])]: the file system and the
    parser are outside the program. *)
Variable read_csv : string -> result Table.

Definition load_from_csv (filepath : string) : result Table :=
  match read_csv filepath with
  | Ok df => Ok df
  | Raise e =>
      if isinstance_Exception e
      then Raise (Exn "Exception"
                    ("Error loading data from " ++ filepath ++ ": " ++ str e)
                    (Some e))
      else Raise e
  end.

End CsvLoader.

End Loader.

(** ** Data transformer ([src/etl/transformer.py]) *)

Module Transformer.

(** *** clean_data *)

(** [frame >= 0] on one numeric cell: a comparison with NaN is false. *)
Definition ge_0 (c : cell) : bool :=
  match c with Some x => Qgeb x 0 | None => false end.

(** The boolean frame [self.data.select_dtypes(include=[np.number]) >= 0] has
    the numeric columns only: it has no entry for [date]. *)
Definition cond_date (r : Row) : option bool := None.

(** Indexing a frame with a boolean frame is [DataFrame.where]: the condition
    is aligned with the frame, entries it lacks are filled with [False], and
    every cell whose entry is false is replaced by the missing marker. *)
Definition fillna_False (m : option bool) : bool :=
  match m with Some b => b | None => false end.

Definition where_ {A} (keep : bool) (c : option A) : option A :=
  if keep then c else None.

Definition where_nonneg (c : cell) : cell := where_ (ge_0 c) c.

Definition mask_row (r : Row) : Row :=
  {| date := where_ (fillna_False (cond_date r)) (date r);
     sleep_duration := where_nonneg (sleep_duration r);
     quality_score := where_nonneg (quality_score r);
     bedtime := where_nonneg (bedtime r);
     wake_time := where_nonneg (wake_time r);
     activity_level := where_nonneg (activity_level r);
     stress_level := where_nonneg (stress_level r);
     heart_rate := where_nonneg (heart_rate r);
     deep_sleep_pct := where_nonneg (deep_sleep_pct r);
     rem_sleep_pct := where_nonneg (rem_sleep_pct r);
     light_sleep_pct := where_nonneg (light_sleep_pct r) |}.

(** [drop_duplicates()] keeps the first occurrence of every row. *)
Fixpoint drop_duplicates_from (seen : list Row) (df : Table) : Table :=
  match df with
  | [] => []
  | r :: rest =>
      if existsb (row_eqb r) seen
      then drop_duplicates_from seen rest
      else r :: drop_duplicates_from (r :: seen) rest
  end.

Definition drop_duplicates (df : Table) : Table := drop_duplicates_from [] df.

(** [sort_values('date')]: the rows with a date are ordered by it and the
    rows whose date is NaT follow, in their original order
    ([na_position='last']).  Rows with equal dates are kept in their original
    order here; numpy's default sort does not promise that, and nothing below
    depends on it. *)
Definition has_date (r : Row) : bool :=
  match date r with Some _ => true | None => false end.

Definition date_key (r : Row) : Z :=
  match date r with Some d => d | None => 0%Z end.

Fixpoint insert_by_date (r : Row) (l : Table) : Table :=
  match l with
  | [] => [r]
  | x :: xs =>
      if (date_key r <=? date_key x)%Z
      then r :: l
      else x :: insert_by_date r xs
  end.

Definition sort_by_date (l : Table) : Table := fold_right insert_by_date [] l.

Definition sort_values_date (df : Table) : Table :=
  sort_by_date (filter has_date df) ++ filter (fun r => negb (has_date r)) df.

Definition clean_data (data : Table) : Table :=
  let data := map mask_row data in
  let data := drop_duplicates data in
  let data := sort_values_date data in
  data.

(** *** engineer_features *)

(** A row after feature engineering: the observation and the six derived
    columns.  Timestamps are hours counted from 1970-01-01 00:00. *)
Record FRow := mkFRow {
  raw                : Row;
  bedtime_datetime   : cell;
  wake_time_datetime : cell;
  sleep_efficiency   : cell;
  bedtime_shift      : cell;
  sleep_debt         : cell;
  day_of_week        : option Z
}.

Definition FTable := list FRow.

(** [pd.to_datetime(date.dt.date) + pd.to_timedelta(hours, unit='h')] *)
Definition at_hour (d : option Z) (hours : cell) : cell :=
  match d, hours with
  | Some d, Some h => Some (inject_Z (24 * d) + h)
  | _, _ => None
  end.

(** [Series.diff()]: the first entry has no predecessor. *)
Fixpoint diff_from (prev : cell) (col : list cell) : list cell :=
  match col with
  | [] => []
  | x :: xs => cell_map2 Qminus x prev :: diff_from x xs
  end.

Definition diff (col : list cell) : list cell :=
  match col with
  | [] => []
  | x :: xs => None :: diff_from x xs
  end.

(** [dt.dayofweek]: Monday is 0; 1970-01-01 was a Thursday. *)
Definition dayofweek (d : option Z) : option Z :=
  match d with Some d => Some ((d + 3) mod 7)%Z | None => None end.

Definition nan_row : Row :=
  mkRow None None None None None None None None None None None.

Definition engineer_features (data : Table) : FTable :=
  let bedtime_datetime :=
    map (fun r => at_hour (date r) (bedtime r)) data in
  let wake_time_datetime :=
    map (fun r => at_hour (date r) (wake_time r)) data in
  let sleep_efficiency :=
    map (fun r =>
           cell_map (fun s => s / 100)
             (cell_map2 Qplus (deep_sleep_pct r)
                (cell_map (fun p => (1#2) * p) (rem_sleep_pct r)))) data in
  let bedtime_shift := map (cell_map Qabs) (diff (map bedtime data)) in
  let sleep_debt := map (fun r => cell_map (fun d => 8 - d) (sleep_duration r)) data in
  let day_of_week := map (fun r => dayofweek (date r)) data in
  map (fun i =>
         {| raw := nth i data nan_row;
            bedtime_datetime := nth i bedtime_datetime None;
            wake_time_datetime := nth i wake_time_datetime None;
            sleep_efficiency := nth i sleep_efficiency None;
            bedtime_shift := nth i bedtime_shift None;
            sleep_debt := nth i sleep_debt None;
            day_of_week := nth i day_of_week None |})
      (seq 0 (List.length data)).

End Transformer.

(** ** Sleep analyzer ([src/analysis/analyzer.py]) *)

Module Analyzer.
Import Transformer.

Fixpoint Qsum (l : list Q) : Q :=
  match l with
  | [] => 0
  | x :: xs => x + Qsum xs
  end.

Definition Qlen (l : list Q) : Q := inject_Z (Z.of_nat (List.length l)).

(** The cells that hold a number. *)
Fixpoint dropna (a : list cell) : list Q :=
  match a with
  | [] => []
  | Some x :: rest => x :: dropna rest
  | None :: rest => dropna rest
  end.

(** pandas' [mean()] (also per group): NaN cells are skipped; the mean of no
    value at all is NaN. *)
Definition nanmean (a : list cell) : cell :=
  match dropna a with
  | [] => None
  | xs => Some (Qsum xs / Qlen xs)
  end.

(** numpy's [mean()]: one NaN makes the result NaN, and so does an empty
    array (0/0). *)
Definition np_mean (a : list cell) : cell :=
  if forallb (fun c => match c with Some _ => true | None => false end) a
  then nanmean a
  else None.

(** numpy's variance with [ddof=0]: the mean of the squared deviations.
    [np.std] is its square root. *)
Definition np_var (a : list cell) : cell :=
  match np_mean a with
  | Some mn => np_mean (map (cell_map (fun x => (x - mn) * (x - mn))) a)
  | None => None
  end.

(** *** Columns by name *)

Definition of_int (d : option Z) : cell :=
  match d with Some k => Some (inject_Z k) | None => None end.

Definition KeyError (name : string) : exn := Exn "KeyError" name None.

(** [self.data[column]] as an array of floats.  The three timestamp columns
    exist but have no arithmetic mean; any other name is not in the frame. *)
Definition float_column (column : string) : result (FRow -> cell) :=
  let named := String.eqb column in
  if named "sleep_duration"%string then Ok (fun r => sleep_duration (raw r))
  else if named "quality_score"%string then Ok (fun r => quality_score (raw r))
  else if named "bedtime"%string then Ok (fun r => bedtime (raw r))
  else if named "wake_time"%string then Ok (fun r => wake_time (raw r))
  else if named "activity_level"%string then Ok (fun r => activity_level (raw r))
  else if named "stress_level"%string then Ok (fun r => stress_level (raw r))
  else if named "heart_rate"%string then Ok (fun r => heart_rate (raw r))
  else if named "deep_sleep_pct"%string then Ok (fun r => deep_sleep_pct (raw r))
  else if named "rem_sleep_pct"%string then Ok (fun r => rem_sleep_pct (raw r))
  else if named "light_sleep_pct"%string then Ok (fun r => light_sleep_pct (raw r))
  else if named "sleep_efficiency"%string then Ok sleep_efficiency
  else if named "bedtime_shift"%string then Ok bedtime_shift
  else if named "sleep_debt"%string then Ok sleep_debt
  else if named "day_of_week"%string then Ok (fun r => of_int (day_of_week r))
  else if named "date"%string || named "bedtime_datetime"%string || named "wake_time_datetime"%string
  then Raise (Exn "TypeError" "cannot take the mean of timestamps" None)
  else Raise (KeyError column).

(** *** analyze_weekly_patterns *)

(** Round half to even, as [numpy.round] does. *)
Definition round_half_even (x : Q) : Z :=
  let f := Qfloor x in
  let r := x - inject_Z f in
  if Qltb r (1#2) then f
  else if Qgtb r (1#2) then (f + 1)%Z
  else if Z.even f then f else (f + 1)%Z.

(** [round(2)] *)
Definition round2 (x : Q) : Q := inject_Z (round_half_even (x * 100)) / 100.

(** The group keys of [groupby('day_of_week')]: the distinct values of the
    column in increasing order, NaN left out. *)
Fixpoint insert_key (k : Z) (l : list Z) : list Z :=
  match l with
  | [] => [k]
  | x :: xs =>
      if (k <? x)%Z then k :: l
      else if (k =? x)%Z then l
      else x :: insert_key k xs
  end.

Fixpoint group_keys (data : FTable) : list Z :=
  match data with
  | [] => []
  | r :: rest =>
      match day_of_week r with
      | Some k => insert_key k (group_keys rest)
      | None => group_keys rest
      end
  end.

Definition in_group (k : Z) (r : FRow) : bool :=
  match day_of_week r with Some d => (d =? k)%Z | None => false end.

Definition group (data : FTable) (k : Z) : FTable := filter (in_group k) data.

(** One line of the result: the day and the five rounded means. *)
Record WeeklyRow := mkWeeklyRow {
  wk_day_of_week    : Z;
  wk_sleep_duration : cell;
  wk_quality_score  : cell;
  wk_deep_sleep_pct : cell;
  wk_bedtime        : cell;
  wk_wake_time      : cell
}.

Definition group_mean (g : FTable) (col : FRow -> cell) : cell :=
  cell_map round2 (nanmean (map col g)).

(** The line of day [k]. *)
Definition weekly_row (data : FTable) (k : Z) : WeeklyRow :=
  let g := group data k in
  {| wk_day_of_week := k;
     wk_sleep_duration := group_mean g (fun r => sleep_duration (raw r));
     wk_quality_score := group_mean g (fun r => quality_score (raw r));
     wk_deep_sleep_pct := group_mean g (fun r => deep_sleep_pct (raw r));
     wk_bedtime := group_mean g (fun r => bedtime (raw r));
     wk_wake_time := group_mean g (fun r => wake_time (raw r)) |}.

Definition analyze_weekly_patterns (data : FTable) : list WeeklyRow :=
  map (weekly_row data) (group_keys data).





(** *** detect_anomalies *)

(** [np.abs(z) > threshold] for one value, where
    [z = (x - mean) / sqrt(var)] is the entry of [stats.zscore]: z is NaN
    when the value, the mean or the variance is, and when the variance is
    zero (a constant column: 0/0).  The square root is not taken: for a
    positive variance, [|x - mean| / sqrt(var) > t] holds exactly when [t] is
    negative or [t * t * var < (x - mean) * (x - mean)]. *)
Definition abs_zscore_gt (x mn var : cell) (threshold : Q) : bool :=
  match x, mn, var with
  | Some x, Some mn, Some var =>
      if Qeq_bool var 0 then false
      else Qltb threshold 0
           || Qltb (threshold * threshold * var) ((x - mn) * (x - mn))
  | _, _, _ => false
  end.

(** [frame[mask]] for a boolean array: the rows whose entry is true. *)
Fixpoint boolean_index {A} (frame : list A) (mask : list bool) : list A :=
  match frame, mask with
  | r :: frame', b :: mask' =>
      if b then r :: boolean_index frame' mask' else boolean_index frame' mask'
  | _, _ => []
  end.

Definition default_threshold : Q := 2.

Definition detect_anomalies (data : FTable) (column : string) (threshold : Q)
    : result FTable :=
  match float_column column with
  | Raise e => Raise e
  | Ok col =>
      let a := map col data in
      let mn := np_mean a in
      let var := np_var a in
      let mask := map (fun x => abs_zscore_gt x mn var threshold) a in
      Ok (boolean_index data mask)
  end.

(** *** calculate_basic_stats *)

(** [min()] and [max()] of a column: NaN cells are skipped, and the result
    is NaN when no value is left. *)
Definition nanmin (a : list cell) : cell :=
  match dropna a with
  | [] => None
  | x :: xs => Some (fold_left Qmin xs x)
  end.

Definition nanmax (a : list cell) : cell :=
  match dropna a with
  | [] => None
  | x :: xs => Some (fold_left Qmax xs x)
  end.

(** The values in increasing order. *)
Fixpoint insert_value (x : Q) (l : list Q) : list Q :=
  match l with
  | [] => [x]
  | y :: ys => if Qle_bool x y then x :: l else y :: insert_value x ys
  end.

Definition sorted_values (l : list Q) : list Q := fold_right insert_value [] l.

(** [median()]: the middle value, or the mean of the two middle values. *)
Definition nanmedian (a : list cell) : cell :=
  match dropna a with
  | [] => None
  | xs =>
      let s := sorted_values xs in
      let n := List.length s in
      if Nat.even n
      then Some ((nth (n / 2 - 1) s 0 + nth (n / 2) s 0) / 2)
      else Some (nth (n / 2) s 0)
  end.

(** The square of pandas' [std()]: the variance with divisor n - 1, NaN for
    fewer than two values. *)
Definition nanvar (a : list cell) : cell :=
  match dropna a with
  | [] => None
  | [_] => None
  | xs =>
      let mn := Qsum xs / Qlen xs in
      Some (Qsum (map (fun x => (x - mn) * (x - mn)) xs) / (Qlen xs - 1))
  end.

(** One entry of [stats_dict]; [std_squared] holds the square of the
    ['std'] entry. *)
Record Stats := mkStats {
  mean        : cell;
  median      : cell;
  std_squared : cell;
  min         : cell;
  max         : cell
}.

Definition column_stats (a : list cell) : Stats :=
  {| mean := nanmean a;
     median := nanmedian a;
     std_squared := nanvar a;
     min := nanmin a;
     max := nanmax a |}.

(** The list [metrics] of [calculate_basic_stats], each name with the
    column it selects. *)
Definition metrics : list (string * (FRow -> cell)) :=
  [("sleep_duration", fun r => sleep_duration (raw r));
   ("quality_score", fun r => quality_score (raw r));
   ("deep_sleep_pct", fun r => deep_sleep_pct (raw r));
   ("rem_sleep_pct", fun r => rem_sleep_pct (raw r));
   ("light_sleep_pct", fun r => light_sleep_pct (raw r))]%string.

Definition calculate_basic_stats (data : FTable) : list (string * Stats) :=
  map (fun metric : string * (FRow -> cell) =>
         (fst metric, column_stats (map (snd metric) data)))
      metrics.

(** *** calculate_sleep_trends *)

(** The [window] rows that end at row [i]. *)
Definition window_at {A} (window i : nat) (col : list A) : list A :=
  firstn window (skipn (i + 1 - window) col).

(** [rolling(window).mean()]: an entry needs [window] values, all present;
    the first [window - 1] entries are NaN. *)
Definition rolling_mean (window : nat) (col : list cell) : list cell :=
  map (fun i =>
         if (i + 1 <? window)%nat then None
         else np_mean (window_at window i col))
      (seq 0 (List.length col)).

(** One row of [trend_data]. *)
Record TrendRow := mkTrendRow {
  sleep_duration_ma : cell;
  quality_score_ma  : cell;
  deep_sleep_pct_ma : cell
}.

Definition default_window : Z := 7.

Definition calculate_sleep_trends (data : FTable) (window : Z)
    : result (list TrendRow) :=
  if (window <? 0)%Z
  then Raise (Exn "ValueError" "window must be an integer 0 or greater" None)
  else
    let w := Z.to_nat window in
    let sd := rolling_mean w (map (fun r => sleep_duration (raw r)) data) in
    let qs := rolling_mean w (map (fun r => quality_score (raw r)) data) in
    let dp := rolling_mean w (map (fun r => deep_sleep_pct (raw r)) data) in
    Ok (map (fun i =>
               {| sleep_duration_ma := nth i sd None;
                  quality_score_ma := nth i qs None;
                  deep_sleep_pct_ma := nth i dp None |})
            (seq 0 (List.length data))).

(** *** generate_sleep_report: the trend label *)

(** [tail()]: the last five rows. *)
Definition tail {A} (l : list A) : list A := skipn (List.length l - 5) l.

(** [is_monotonic_increasing]: no value is below the one before it; a NaN
    anywhere makes it false. *)
Fixpoint is_monotonic_increasing (l : list cell) : bool :=
  match l with
  | [] => true
  | x :: rest =>
      match x, rest with
      | None, _ => false
      | Some _, [] => true
      | Some a, Some b :: _ => Qle_bool a b && is_monotonic_increasing rest
      | Some _, None :: _ => false
      end
  end.

Definition sleep_quality_trend (data : FTable) : string :=
  if is_monotonic_increasing
       (tail (map (fun r => quality_score (raw r)) data))
  then "improving" else "varying".

End Analyzer.

(** ** Data transformer, continued: [perform_quality_checks] *)

Module QualityChecks.
Import Analyzer.

(** [isnull().sum()] of one column. *)
Definition isnull_sum {A} (col : list (option A)) : nat :=
  List.length (filter (fun c => match c with None => true | Some _ => false end)
                      col).

(** The numeric columns by name, in the order of the frame. *)
Definition numeric_columns : list (string * (Row -> cell)) :=
  [("sleep_duration", sleep_duration); ("quality_score", quality_score);
   ("bedtime", bedtime); ("wake_time", wake_time);
   ("activity_level", activity_level); ("stress_level", stress_level);
   ("heart_rate", heart_rate); ("deep_sleep_pct", deep_sleep_pct);
   ("rem_sleep_pct", rem_sleep_pct);
   ("light_sleep_pct", light_sleep_pct)]%string.

(** What [perform_quality_checks] stores in [self.quality_checks]. *)
Record QualityReport := mkQualityReport {
  missing_values : list (string * nat);
  value_ranges   : list (string * (cell * cell));
  record_count   : nat;
  data_types     : list (string * string)
}.

Definition perform_quality_checks (data : Table) : QualityReport :=
  {| missing_values :=
       ("date"%string, isnull_sum (map date data))
       :: map (fun c : string * (Row -> cell) =>
                 (fst c, isnull_sum (map (snd c) data)))
              numeric_columns;
     value_ranges :=
       map (fun c : string * (Row -> cell) =>
              (fst c, (nanmin (map (snd c) data), nanmax (map (snd c) data))))
           numeric_columns;
     record_count := List.length data;
     data_types :=
       ("date", "datetime64[ns]")%string
       :: map (fun c : string * (Row -> cell) => (fst c, "float64"%string))
              numeric_columns |}.

End QualityChecks.

(** ** Vocabulary of the statements *)

Module RiskSpec.

(** The seven scalar inputs of the form. *)
Record Inputs := mkInputs {
  in_sleep_duration : Q;
  in_quality_score  : Q;
  in_deep_sleep_pct : Q;
  in_rem_sleep_pct  : Q;
  in_age            : Q;
  in_stress_level   : Q;
  in_heart_rate     : Q
}.

Definition score (x : Inputs) : Z :=
  Risk.calculate_health_risk_score
    (in_sleep_duration x) (in_quality_score x) (in_deep_sleep_pct x)
    (in_rem_sleep_pct x) (in_age x) (in_stress_level x) (in_heart_rate x).

(** Sleep duration is penalised on both sides of the band [7, 9]: a move is
    away from the band when it shortens a night that is not over-long (or
    ends below 6), or lengthens a night that is not short. *)
Definition duration_away (d d' : Q) : Prop :=
  (d' <= d /\ (d <= 9 \/ d' < 6)) \/ (d <= d' /\ 7 <= d).

(** Heart rate is penalised on both sides of the band [55, 75]. *)
Definition heart_rate_away (h h' : Q) : Prop :=
  (h <= h' /\ 55 <= h) \/ (h' <= h /\ h <= 75).

(** [y] is [x] with every input left alone or moved towards more risk. *)
Record riskier (x y : Inputs) : Prop := mkRiskier {
  r_duration : duration_away (in_sleep_duration x) (in_sleep_duration y);
  r_quality  : in_quality_score y <= in_quality_score x;
  r_deep     : in_deep_sleep_pct y <= in_deep_sleep_pct x;
  r_rem      : in_rem_sleep_pct y <= in_rem_sleep_pct x;
  r_age      : in_age x <= in_age y;
  r_stress   : in_stress_level x <= in_stress_level y;
  r_heart    : heart_rate_away (in_heart_rate x) (in_heart_rate y)
}.

End RiskSpec.

(** A small concrete generator, for running the synthetic-data code: a
    linear congruential state and a "draw" that spreads five values around
    [loc]. *)
Module ToyRNG.

Definition RNG : Type := Z.

Definition np_random_seed (s : Z) : RNG := s.

Definition normal (loc scale : Q) (g : RNG) : Q * RNG :=
  (loc + scale * (inject_Z (g mod 5 - 2) / 2),
   ((1103515245 * g + 12345) mod 2147483648)%Z).

Definition run_generator (n : Z) : RNG -> result (Table * RNG) :=
  Loader.run_generator RNG np_random_seed normal n.

End ToyRNG.

(** [s] occurs in [msg]. *)
Definition occurs_in (s msg : string) : Prop :=
  exists pre post : string, msg = (pre ++ s ++ post)%string.

(** A loader against a file system with no file in it. *)
Definition read_csv_missing (filepath : string) : result Table :=
  Raise (Exn "FileNotFoundError"
           ("[Errno 2] No such file or directory: " ++ filepath) None).

Module TableSpec.

(** Python's [<=] on two datetime cells: a comparison with NaT is false. *)
Definition date_le (a b : option Z) : Prop :=
  match a, b with
  | Some x, Some y => (x <= y)%Z
  | _, _ => False
  end.

(** Each row's date is [<=] the date of the row below it. *)
Definition sorted_by_date (df : Table) : Prop :=
  Sorted (fun r s => date_le (date r) (date s)) df.

(** No numeric cell of the table holds a negative number. *)
Definition no_negative (df : Table) : Prop :=
  forall r c x, In r df -> In c (numeric_cells r) -> c = Some x -> 0 <= x.

Definition row_equiv (r s : Row) : Prop := row_eqb r s = true.

(** No two rows at different positions are equal. *)
Definition no_duplicate_rows (df : Table) : Prop := NoDupA row_equiv df.

(** Two nights, the later one first. *)
Definition night_of_jan_2 : Row :=
  mkRow (Some 20090%Z) (Some 8) (Some 80) (Some 23) (Some 7) (Some 40)
        (Some 4) (Some 60) (Some 20) (Some 25) (Some 55).

Definition night_of_jan_1 : Row :=
  mkRow (Some 20089%Z) (Some 6) (Some 70) (Some 22) (Some 4) (Some 50)
        (Some 5) (Some 65) (Some 18) (Some 22) (Some 60).

Definition unsorted_table : Table := [night_of_jan_2; night_of_jan_1].

(** The same two nights in date order. *)
Definition sorted_table : Table := [night_of_jan_1; night_of_jan_2].

(** A night with one negative cell. *)
Definition night_with_negative_quality : Row :=
  mkRow (Some 20089%Z) (Some 6) (Some (-5)) (Some 22) (Some 4) (Some 50)
        (Some 5) (Some 65) (Some 18) (Some 22) (Some 60).


End TableSpec.

Module AnalyzerSpec.
Import Transformer Analyzer.





(** The number in a cell, 0 for the missing marker. *)
Definition value (c : cell) : Q :=
  match c with Some x => x | None => 0 end.

(** The z-score of [x] as a real number, for a column of mean [mn] and
    variance [var]: [(x - mn) / sqrt var]. *)
Definition zscore (x mn var : Q) : R :=
  ((Q2R x - Q2R mn) / sqrt (Q2R var))%R.

End AnalyzerSpec.

Module AnalyzerExamples.
Import Transformer TableSpec.

(** A Wednesday, the Thursday after it and the Wednesday a week later. *)
Definition night_of_jan_8 : Row :=
  mkRow (Some 20096%Z) (Some (15#2)) (Some (70005#1000)) (Some 23) (Some (13#2))
        (Some 45) (Some 5) (Some 62) (Some 21) (Some 24) (Some 55).

Definition week_table : FTable :=
  engineer_features [night_of_jan_1; night_of_jan_2; night_of_jan_8].

(** Two nights that differ in everything but the hours slept. *)
Definition constant_duration_table : FTable :=
  engineer_features
    [mkRow (Some 20089%Z) (Some 7) (Some 70) (Some 22) (Some 5) (Some 50)
           (Some 5) (Some 65) (Some 18) (Some 22) (Some 60);
     mkRow (Some 20090%Z) (Some 7) (Some 80) (Some 23) (Some 6) (Some 40)
           (Some 4) (Some 60) (Some 20) (Some 25) (Some 55)].


End AnalyzerExamples.

(** The labels and advisory strings of the risk heuristics. *)
Module RiskText.

Definition cardiovascular : string := "Increased cardiovascular risk".
Definition metabolic : string := "Metabolic disorder risk".
Definition cognitive : string := "Cognitive decline risk".
Definition mental : string := "Mental health vulnerability".
Definition age_related : string := "Age-related sleep disorder risk".

Definition advice_duration : string :=
  "🕒 Increase sleep duration to at least 7 hours".
Definition advice_quality : string :=
  "🛏️ Improve sleep quality through better sleep hygiene".
Definition advice_stress : string :=
  "🧘‍♀️ Implement stress management techniques".
Definition advice_deep : string :=
  "💪 Focus on improving deep sleep through exercise".
Definition advice_rem : string :=
  "⏰ Improve REM sleep by maintaining regular sleep patterns".

End RiskText.

Module TrendExamples.
Import Transformer TableSpec AnalyzerExamples.

(** Five nights, and eight nights that end with the same five. *)
Definition five_nights : FTable :=
  engineer_features
    [night_of_jan_1; night_of_jan_2; night_of_jan_8; night_of_jan_1;
     night_of_jan_2].

Definition eight_nights : FTable := week_table ++ five_nights.

End TrendExamples.

(** * Properties *)

(** ** Comparisons *)

Lemma Qltb_lt x y : Qltb x y = true <-> x < y.
Proof.
  unfold Qltb. rewrite negb_true_iff. split; intro H.
  - apply Qnot_le_lt. intro C. apply Qle_bool_iff in C. congruence.
  - destruct (Qle_bool y x) eqn:E; trivial.
    apply Qle_bool_iff in E. exfalso. revert E. apply Qlt_not_le, H.
Qed.

Lemma Qltb_ge x y : Qltb x y = false <-> y <= x.
Proof.
  unfold Qltb. rewrite negb_false_iff. apply Qle_bool_iff.
Qed.

Lemma Qgtb_gt x y : Qgtb x y = true <-> y < x.
Proof. apply Qltb_lt. Qed.

Lemma Qgtb_le x y : Qgtb x y = false <-> x <= y.
Proof. apply Qltb_ge. Qed.

Lemma Qgeb_ge x y : Qgeb x y = true <-> y <= x.
Proof. apply Qle_bool_iff. Qed.

Lemma Qgeb_lt x y : Qgeb x y = false <-> x < y.
Proof.
  unfold Qgeb. split; intro H.
  - apply Qnot_le_lt. intro C. apply Qle_bool_iff in C. congruence.
  - destruct (Qle_bool y x) eqn:E; trivial.
    apply Qle_bool_iff in E. exfalso. revert E. apply Qlt_not_le, H.
Qed.

(** Case analysis on one Python comparison, leaving the arithmetic fact. *)
Ltac cmp_cases :=
  repeat match goal with
  | |- context [Qltb ?a ?b] =>
      let E := fresh "E" in
      destruct (Qltb a b) eqn:E;
      [apply Qltb_lt in E | apply Qltb_ge in E]
  | |- context [Qgtb ?a ?b] =>
      let E := fresh "E" in
      destruct (Qgtb a b) eqn:E;
      [apply Qgtb_gt in E | apply Qgtb_le in E]
  | |- context [Qgeb ?a ?b] =>
      let E := fresh "E" in
      destruct (Qgeb a b) eqn:E;
      [apply Qgeb_ge in E | apply Qgeb_lt in E]
  end.

(** ** Risk heuristics *)

Section RiskFacts.
Import Risk.

Lemma duration_risk_range d : (0 <= duration_risk d <= 30)%Z.
Proof. unfold duration_risk. cmp_cases; lia. Qed.

Lemma quality_risk_range q : (0 <= quality_risk q <= 25)%Z.
Proof. unfold quality_risk. cmp_cases; lia. Qed.

Lemma deep_risk_range p : (0 <= deep_risk p <= 20)%Z.
Proof. unfold deep_risk. cmp_cases; lia. Qed.

Lemma rem_risk_range p : (0 <= rem_risk p <= 15)%Z.
Proof. unfold rem_risk. cmp_cases; lia. Qed.

Lemma age_risk_range a : (0 <= age_risk a <= 20)%Z.
Proof. unfold age_risk. cmp_cases; lia. Qed.

Lemma stress_risk_range s : (0 <= stress_risk s <= 25)%Z.
Proof. unfold stress_risk. cmp_cases; lia. Qed.

Lemma heart_risk_range h : (0 <= heart_risk h <= 15)%Z.
Proof. unfold heart_risk. cmp_cases; lia. Qed.

(** Closes a goal [(c1 <= c2)%Z] between two penalties once every comparison
    has been decided: either the constants agree with the order, or the
    decided comparisons contradict each other. *)
Ltac tiers := cmp_cases; first [lia | exfalso; lra].

(** Shorter sleep is riskier, from anywhere outside the over-sleeping tier,
    and from anywhere at all once the new value is below 6. *)
Lemma duration_risk_shorter d d' :
  d' <= d -> d <= 9 \/ d' < 6 -> (duration_risk d <= duration_risk d')%Z.
Proof. intros H [H9|H6]; unfold duration_risk; tiers. Qed.

(** Longer sleep is riskier, from anywhere outside the short-sleep tiers. *)
Lemma duration_risk_longer d d' :
  d <= d' -> 7 <= d -> (duration_risk d <= duration_risk d')%Z.
Proof. intros H H7; unfold duration_risk; tiers. Qed.

Lemma quality_risk_antitone q q' :
  q' <= q -> (quality_risk q <= quality_risk q')%Z.
Proof. intros H; unfold quality_risk; tiers. Qed.

Lemma deep_risk_antitone p p' : p' <= p -> (deep_risk p <= deep_risk p')%Z.
Proof. intros H; unfold deep_risk; tiers. Qed.

Lemma rem_risk_antitone p p' : p' <= p -> (rem_risk p <= rem_risk p')%Z.
Proof. intros H; unfold rem_risk; tiers. Qed.

Lemma age_risk_monotone a a' : a <= a' -> (age_risk a <= age_risk a')%Z.
Proof. intros H; unfold age_risk; tiers. Qed.

Lemma stress_risk_monotone s s' :
  s <= s' -> (stress_risk s <= stress_risk s')%Z.
Proof. intros H; unfold stress_risk; tiers. Qed.

Lemma heart_risk_faster h h' :
  h <= h' -> 55 <= h -> (heart_risk h <= heart_risk h')%Z.
Proof. intros H H55; unfold heart_risk; tiers. Qed.

Lemma heart_risk_slower h h' :
  h' <= h -> h <= 75 -> (heart_risk h <= heart_risk h')%Z.
Proof. intros H H75; unfold heart_risk; tiers. Qed.

End RiskFacts.

Section RiskTheorems.
Import Risk RiskSpec.

Lemma risk_score_range x : (0 <= score x <= 100)%Z.
Proof.
  unfold score, calculate_health_risk_score.
  pose proof (duration_risk_range (in_sleep_duration x)).
  pose proof (quality_risk_range (in_quality_score x)).
  pose proof (deep_risk_range (in_deep_sleep_pct x)).
  pose proof (rem_risk_range (in_rem_sleep_pct x)).
  pose proof (age_risk_range (in_age x)).
  pose proof (stress_risk_range (in_stress_level x)).
  pose proof (heart_risk_range (in_heart_rate x)).
  lia.
Qed.

Lemma duration_away_risk d d' :
  duration_away d d' -> (duration_risk d <= duration_risk d')%Z.
Proof.
  intros [[H1 H2]|[H1 H2]].
  - now apply duration_risk_shorter.
  - now apply duration_risk_longer.
Qed.

Lemma heart_rate_away_risk h h' :
  heart_rate_away h h' -> (heart_risk h <= heart_risk h')%Z.
Proof.
  intros [[H1 H2]|[H1 H2]].
  - now apply heart_risk_faster.
  - now apply heart_risk_slower.
Qed.

(** C4 (as amended).  The score always lies in [0, 100], and it never
    decreases when inputs move towards more risk: a lower quality score,
    deep-sleep or REM percentage, a higher age or stress level, and a sleep
    duration or heart rate that moves away from its healthy band ([7, 9]
    hours, [55, 75] beats).  Moving one input with the other six fixed is the
    case where the six are equal. *)
Theorem risk_score_clamped_and_monotone (x y : Inputs) :
  (0 <= score x <= 100)%Z /\ (riskier x y -> (score x <= score y)%Z).
Proof.
  split; [apply risk_score_range|].
  intros [Hd Hq Hp Hr Ha Hs Hh].
  unfold score, calculate_health_risk_score.
  apply duration_away_risk in Hd.
  apply quality_risk_antitone in Hq.
  apply deep_risk_antitone in Hp.
  apply rem_risk_antitone in Hr.
  apply age_risk_monotone in Ha.
  apply stress_risk_monotone in Hs.
  apply heart_rate_away_risk in Hh.
  lia.
Qed.

(** The claim's own example: sleep shortened to below 6 hours, from any
    duration, with the other six inputs unchanged. *)
Lemma risk_score_clamped_and_monotone_witness :
  let x := mkInputs 10 80 20 25 30 3 60 in
  let y := mkInputs (11#2) 80 20 25 30 3 60 in
  riskier x y /\ (0 <= score x <= 100)%Z /\ (score x <= score y)%Z.
Proof.
  intros x y.
  assert (R : riskier x y).
  { constructor; simpl; try (apply Qle_refl).
    - left. split; [|right]; reflexivity || (intro C; discriminate C).
    - left. split; apply Qle_bool_iff; reflexivity. }
  split; [exact R|].
  split.
  - exact (proj1 (risk_score_clamped_and_monotone x y)).
  - exact (proj2 (risk_score_clamped_and_monotone x y) R).
Defined.

(** C4 (as stated) fails for the two inputs that are penalised on both
    sides: shortening sleep from 10 to 8 hours lowers the score from 10 to 0,
    and raising the heart rate from 50 to 60 does the same. *)
Lemma risk_score_not_monotone_in_every_direction :
  ~ (forall d d' q dp rp a s h, d' <= d ->
       (calculate_health_risk_score d q dp rp a s h
        <= calculate_health_risk_score d' q dp rp a s h)%Z)
  /\
  ~ (forall d q dp rp a s h h', h <= h' ->
       (calculate_health_risk_score d q dp rp a s h
        <= calculate_health_risk_score d q dp rp a s h')%Z).
Proof.
  split; intro H.
  - specialize (H 10 8 80 20 25 30 3 60).
    assert (L : 8 <= 10) by (apply Qle_bool_iff; reflexivity).
    apply H in L. vm_compute in L. apply L. reflexivity.
  - specialize (H 8 80 20 25 30 3 50 60).
    assert (L : 50 <= 60) by (apply Qle_bool_iff; reflexivity).
    apply H in L. vm_compute in L. apply L. reflexivity.
Qed.

(** C6.  For duration 5, quality 50, deep 10, REM 15, age 65, stress 9 and
    heart rate 80 the score is 100 (the sum of the penalties is 150, clamped)
    and the predicted conditions are not empty and include the
    cardiovascular one. *)
Theorem scenario_high_risk :
  calculate_health_risk_score 5 50 10 15 65 9 80 = 100%Z
  /\ predict_health_conditions 5 50 10 15 65 9 80 <> []
  /\ In "Increased cardiovascular risk"%string
        (predict_health_conditions 5 50 10 15 65 9 80).
Proof.
  split; [reflexivity|].
  split.
  - vm_compute. discriminate.
  - vm_compute. left. reflexivity.
Qed.

Lemma base_impact_nonpositive d q s :
  0 + duration_impact d + quality_impact q + stress_impact s <= 0.
Proof.
  unfold duration_impact, quality_impact, stress_impact.
  cmp_cases; lra.
Qed.

Lemma age_factor_positive a : 0 < age_factor a.
Proof.
  unfold age_factor. cmp_cases; [|lra].
  assert (0 < (a - 30) / 100); [|lra].
  apply Qlt_shift_div_l; lra.
Qed.

(** C10.  The estimated life-expectancy impact is never positive: the base
    impact is a sum of non-positive penalties and the age factor is
    positive. *)
Theorem life_expectancy_impact_nonpositive (d q s a : Q) :
  estimate_life_expectancy_impact d q s a <= 0.
Proof.
  unfold estimate_life_expectancy_impact.
  pose proof (base_impact_nonpositive d q s) as Hb.
  pose proof (age_factor_positive a) as Ha.
  set (b := 0 + duration_impact d + quality_impact q + stress_impact s) in *.
  set (f := age_factor a) in *.
  nra.
Qed.

End RiskTheorems.

(** ** Synthetic data generator *)

Section GeneratorFacts.
Import Loader.

Variable RNG : Type.
Variable np_random_seed : Z -> RNG.
Variable normal : Q -> Q -> RNG -> Q * RNG.

Local Abbreviation draws := (draws RNG normal).
Local Abbreviation np_random_normal := (np_random_normal RNG normal).
Local Abbreviation generate_data := (generate_data RNG normal).
Local Abbreviation run_generator := (run_generator RNG np_random_seed normal).

Lemma draws_length loc scale n g :
  List.length (fst (draws loc scale n g)) = n.
Proof.
  revert g. induction n as [|k IH]; intro g; simpl; trivial.
  destruct (normal loc scale g) as [x g1].
  specialize (IH g1). destruct (draws loc scale k g1) as [xs g2].
  simpl in *. now rewrite IH.
Qed.

Lemma np_random_normal_negative loc scale size g :
  (size < 0)%Z ->
  np_random_normal loc scale size g
  = Raise (Exn "ValueError" "negative dimensions are not allowed" None).
Proof.
  intro H. unfold np_random_normal.
  apply Z.ltb_lt in H. now rewrite H.
Qed.

Lemma np_random_normal_size loc scale size g :
  (0 <= size)%Z ->
  exists xs g',
    np_random_normal loc scale size g = Ok (xs, g')
    /\ List.length xs = Z.to_nat size.
Proof.
  intro H. unfold np_random_normal.
  apply Z.ltb_ge in H. rewrite H.
  pose proof (draws_length loc scale (Z.to_nat size) g) as L.
  destruct (draws loc scale (Z.to_nat size) g) as [xs g'].
  exists xs, g'. split; trivial.
Qed.

Lemma range_length n : List.length (range n) = Z.to_nat n.
Proof. unfold range. now rewrite length_map, length_seq. Qed.

Lemma range_nth n i :
  (i < Z.to_nat n)%nat -> nth i (range n) 0%Z = Z.of_nat i.
Proof.
  intro H. unfold range.
  change 0%Z with (Z.of_nat 0). rewrite map_nth.
  now rewrite seq_nth.
Qed.

Lemma range_In n x : In x (range n) -> (0 <= x < n)%Z.
Proof.
  unfold range. intro H. apply in_map_iff in H.
  destruct H as (k & <- & H). apply in_seq in H. lia.
Qed.

Lemma comprehension_Ok {A B} (f : A -> result B) (g : A -> B) l :
  (forall x, In x l -> f x = Ok (g x)) ->
  comprehension f l = Ok (map g l).
Proof.
  induction l as [|x xs IH]; intro H; simpl; trivial.
  rewrite (H x (or_introl eq_refl)), IH; trivial.
  intros y Hy. apply H. now right.
Qed.

Lemma comprehension_Raise {A B} (f : A -> result B) (g : A -> B) e l :
  (forall x, In x l -> f x = Ok (g x) \/ f x = Raise e) ->
  (exists x, In x l /\ f x = Raise e) ->
  comprehension f l = Raise e.
Proof.
  induction l as [|x xs IH]; intros H (y & Hy & Ey); [destruct Hy|].
  simpl. destruct (H x (or_introl eq_refl)) as [E|E]; rewrite E; trivial.
  rewrite IH; trivial.
  - intros z Hz. apply H. now right.
  - destruct Hy as [<-|Hy]; [congruence|now exists y].
Qed.

Lemma add_days_from_start x :
  (0 <= x)%Z ->
  add_days start_date x
  = if (2912807 <? x)%Z
    then Raise (Exn "OverflowError" "date value out of range" None)
    else Ok (start_date + x)%Z.
Proof.
  intro H. unfold add_days, start_date, datetime_min, datetime_max.
  assert (E1 : (20089 + x <? -719162)%Z = false) by (apply Z.ltb_ge; lia).
  rewrite E1. cbn [orb].
  destruct (2912807 <? x)%Z eqn:E.
  - apply Z.ltb_lt in E.
    assert (E2 : (2932896 <? 20089 + x)%Z = true) by (apply Z.ltb_lt; lia).
    now rewrite E2.
  - apply Z.ltb_ge in E.
    assert (E2 : (2932896 <? 20089 + x)%Z = false) by (apply Z.ltb_ge; lia).
    now rewrite E2.
Qed.

(** The dates of a run: every one of them is a [datetime] as long as the
    last, [start_date + (n - 1)], is not past 9999-12-31. *)
Lemma dates_in_range n :
  (n <= 2912808)%Z ->
  comprehension (add_days start_date) (range n)
  = Ok (map (fun x => (start_date + x)%Z) (range n)).
Proof.
  intro H. apply comprehension_Ok. intros x Hx. apply range_In in Hx.
  rewrite add_days_from_start by lia.
  assert (E : (2912807 <? x)%Z = false) by (apply Z.ltb_ge; lia).
  now rewrite E.
Qed.

Lemma dates_out_of_range n :
  (2912808 < n)%Z ->
  comprehension (add_days start_date) (range n)
  = Raise (Exn "OverflowError" "date value out of range" None).
Proof.
  intro H.
  apply (comprehension_Raise _ (fun x => (start_date + x)%Z)).
  - intros x Hx. apply range_In in Hx.
    rewrite add_days_from_start by lia.
    destruct (2912807 <? x)%Z; auto.
  - exists 2912808%Z. split.
    + unfold range. apply in_map_iff. exists (Z.to_nat 2912808).
      split; [apply Z2Nat.id; lia|]. apply in_seq. lia.
    + rewrite add_days_from_start by lia. reflexivity.
Qed.

Lemma generate_data_nonneg n g :
  (0 <= n <= 2912808)%Z ->
  exists c g',
    generate_data (mkGenerator n) g
    = Ok (map (finish c) (seq 0 (Z.to_nat n)), g')
    /\ c_date c = map (fun x => (start_date + x)%Z) (range n).
Proof.
  intros [H Hmax]. unfold generate_data, bind, lift. simpl n_samples.
  rewrite (dates_in_range n Hmax).
  destruct (np_random_normal_size (15#2) (3#2) n g H) as (sd & g1 & E1 & L1).
  rewrite E1.
  destruct (np_random_normal_size 75 15 n g1 H) as (qs & g2 & E2 & L2).
  rewrite E2.
  destruct (np_random_normal_size 23 (3#2) n g2 H) as (bt & g3 & E3 & L3).
  rewrite E3.
  destruct (np_random_normal_size 45 20 n g3 H) as (al & g4 & E4 & L4).
  rewrite E4.
  destruct (np_random_normal_size 5 2 n g4 H) as (sl & g5 & E5 & L5).
  rewrite E5.
  destruct (np_random_normal_size 65 5 n g5 H) as (hr & g6 & E6 & L6).
  rewrite E6.
  destruct (np_random_normal_size 20 5 n g6 H) as (dp & g7 & E7 & L7).
  rewrite E7.
  destruct (np_random_normal_size 25 5 n g7 H) as (rp & g8 & E8 & L8).
  rewrite E8.
  set (c := mkColumns _ sd qs bt al sl hr dp rp).
  exists c, g8. split; [|reflexivity].
  assert (Ld : List.length (c_date c) = Z.to_nat n).
  { subst c. simpl. now rewrite length_map, range_length. }
  unfold DataFrame.
  assert (S : same_length c = true).
  { unfold same_length. rewrite Ld. subst c. simpl.
    rewrite L1, L2, L3, L4, L5, L6, L7, L8, Nat.eqb_refl. reflexivity. }
  rewrite S. unfold ret, _apply_constraints. rewrite Ld.
  now rewrite !map_map.
Qed.

Lemma generate_data_negative n g :
  (n < 0)%Z ->
  generate_data (mkGenerator n) g
  = Raise (Exn "ValueError" "negative dimensions are not allowed" None).
Proof.
  intro H. unfold generate_data, bind, lift. simpl n_samples.
  rewrite dates_in_range by lia.
  now rewrite np_random_normal_negative.
Qed.

(** Past 9999-12-31 the dates cannot be built: the run stops there, before
    any number is drawn. *)
Lemma generate_data_overflow n g :
  (2912808 < n)%Z ->
  generate_data (mkGenerator n) g
  = Raise (Exn "OverflowError" "date value out of range" None).
Proof.
  intro H. unfold generate_data, bind, lift. simpl n_samples.
  now rewrite dates_out_of_range.
Qed.

Lemma run_generator_reseeds n g :
  run_generator n g = generate_data (mkGenerator n) (np_random_seed 42).
Proof. reflexivity. Qed.

Lemma finish_date c i : date (finish c i) = Some (nth i (c_date c) 0%Z).
Proof. reflexivity. Qed.

End GeneratorFacts.

Section GeneratorTheorems.
Import Loader.

Variable RNG : Type.
Variable np_random_seed : Z -> RNG.
Variable normal : Q -> Q -> RNG -> Q * RNG.

Local Abbreviation init := (init RNG np_random_seed).
Local Abbreviation run_generator := (run_generator RNG np_random_seed normal).

(** C5 (as amended).  For every N from 1 to 2912808, the last count whose
    dates end by 9999-12-31, a run of the generator returns a table of
    exactly N rows whose dates are 2025-01-01, 2025-01-02, ... in this order,
    and two runs with the same N return the same table whatever state
    numpy's generator was in before: the constructor reseeds it with 42. *)
Theorem generator_rows_dates_deterministic (n : Z) (g1 g2 : RNG) :
  (0 < n <= 2912808)%Z ->
  exists df g',
    run_generator n g1 = Ok (df, g')
    /\ run_generator n g2 = Ok (df, g')
    /\ List.length df = Z.to_nat n
    /\ forall i r, nth_error df i = Some r ->
                   date r = Some (start_date + Z.of_nat i)%Z.
Proof.
  intro H.
  destruct (generate_data_nonneg RNG normal n (np_random_seed 42))
    as (c & g' & E & D); [lia|].
  exists (map (finish c) (seq 0 (Z.to_nat n))), g'.
  rewrite !run_generator_reseeds.
  repeat split; trivial.
  - now rewrite length_map, length_seq.
  - intros i r Hi.
    assert (L : (i < Z.to_nat n)%nat).
    { assert (N : nth_error (map (finish c) (seq 0 (Z.to_nat n))) i <> None)
        by congruence.
      apply nth_error_Some in N. now rewrite length_map, length_seq in N. }
    rewrite nth_error_map, nth_error_seq in Hi.
    apply Nat.ltb_lt in L. rewrite L in Hi. simpl in Hi.
    injection Hi as <-. apply Nat.ltb_lt in L.
    rewrite finish_date, D.
    change 0%Z with ((fun x => (start_date + x)%Z) (-start_date)%Z) at 1.
    rewrite map_nth. f_equal. f_equal.
    rewrite nth_indep with (d' := 0%Z) by now rewrite range_length.
    now apply range_nth.
Qed.


End GeneratorTheorems.

Lemma generator_rows_dates_deterministic_witness :
  (0 < 3 <= 2912808)%Z /\
  exists df g',
    ToyRNG.run_generator 3 1%Z = Ok (df, g')
    /\ ToyRNG.run_generator 3 2%Z = Ok (df, g')
    /\ List.length df = 3%nat
    /\ forall i r, nth_error df i = Some r ->
                   date r = Some (Loader.start_date + Z.of_nat i)%Z.
Proof.
  split; [lia|].
  apply (generator_rows_dates_deterministic
           ToyRNG.RNG ToyRNG.np_random_seed ToyRNG.normal 3 1%Z 2%Z).
  lia.
Defined.


(** C5 (as stated) fails at N = 2912809: the last date would be
    10000-01-01, the run raises [OverflowError] and returns no table. *)
Lemma generator_overflows_past_year_9999 :
  ToyRNG.run_generator 2912809 7%Z
  = Raise (Exn "OverflowError" "date value out of range" None)
  /\ ~ (forall n g, (0 < n)%Z ->
         exists df g',
           ToyRNG.run_generator n g = Ok (df, g')
           /\ List.length df = Z.to_nat n).
Proof.
  assert (E : ToyRNG.run_generator 2912809 7%Z
              = Raise (Exn "OverflowError" "date value out of range" None)).
  { unfold ToyRNG.run_generator. rewrite run_generator_reseeds.
    apply generate_data_overflow. lia. }
  split; [exact E|].
  intro H. destruct (H 2912809%Z 7%Z) as (df & g' & E' & _); [lia|].
  rewrite E in E'. discriminate E'.
Qed.


(** ** CSV loader *)

Lemma string_append_assoc (a b c : string) :
  ((a ++ b) ++ c = a ++ b ++ c)%string.
Proof. induction a as [|x a IH]; simpl; [reflexivity|now rewrite IH]. Qed.

Lemma string_append_nil (a : string) : (a ++ EmptyString = a)%string.
Proof. induction a as [|x a IH]; simpl; [reflexivity|now rewrite IH]. Qed.

Section LoaderTheorems.
Import Loader.

Variable read_csv : string -> result Table.

Local Abbreviation load_from_csv := (load_from_csv read_csv).

(** C8.  Whenever reading the file fails with an exception (any subclass of
    [Exception], as parse and I/O errors are), [load_from_csv] fails too, with
    one kind of error only: an [Exception] whose message names the file path
    and carries the text of the cause, and whose context is the cause.  It
    returns a table only when the read returned that very table. *)
Theorem load_from_csv_wraps_failure (filepath : string) :
  (forall cause,
     read_csv filepath = Raise cause ->
     isinstance_Exception cause = true ->
     exists e,
       load_from_csv filepath = Raise e
       /\ exn_class e = "Exception"%string
       /\ exn_context e = Some cause
       /\ occurs_in filepath (str e)
       /\ occurs_in (str cause) (str e))
  /\ (forall df, load_from_csv filepath = Ok df -> read_csv filepath = Ok df).
Proof.
  unfold Loader.load_from_csv. split.
  - intros cause E C. rewrite E, C.
    eexists. split; [reflexivity|]. repeat split.
    + exists "Error loading data from "%string, (": " ++ str cause)%string.
      reflexivity.
    + exists ("Error loading data from " ++ filepath ++ ": ")%string,
        EmptyString.
      rewrite string_append_nil, !string_append_assoc. reflexivity.
  - intros df. destruct (read_csv filepath) as [t|e]; [congruence|].
    destruct (isinstance_Exception e); discriminate.
Qed.

End LoaderTheorems.

Lemma load_from_csv_wraps_failure_witness :
  let cause :=
    Exn "FileNotFoundError" "[Errno 2] No such file or directory: sleep.csv"
      None in
  exists e,
    Loader.load_from_csv read_csv_missing "sleep.csv" = Raise e
    /\ exn_class e = "Exception"%string
    /\ exn_context e = Some cause
    /\ occurs_in "sleep.csv" (str e)
    /\ occurs_in (str cause) (str e).
Proof.
  intro cause.
  apply (proj1 (load_from_csv_wraps_failure read_csv_missing "sleep.csv"));
    reflexivity.
Defined.

(** ** Cleaning *)

Section CleanFacts.
Import Transformer TableSpec.

Lemma Qeq_bool_sym x y : Qeq_bool x y = Qeq_bool y x.
Proof.
  destruct (Qeq_bool x y) eqn:E1, (Qeq_bool y x) eqn:E2; trivial.
  - apply Qeq_bool_iff, Qeq_sym, Qeq_bool_iff in E1. congruence.
  - apply Qeq_bool_iff, Qeq_sym, Qeq_bool_iff in E2. congruence.
Qed.

Lemma cell_eqb_sym a b : cell_eqb a b = cell_eqb b a.
Proof. destruct a, b; simpl; trivial. apply Qeq_bool_sym. Qed.

Lemma date_eqb_sym a b : date_eqb a b = date_eqb b a.
Proof. destruct a, b; simpl; trivial. apply Z.eqb_sym. Qed.

Lemma row_eqb_sym r s : row_eqb r s = row_eqb s r.
Proof.
  unfold row_eqb, numeric_cells. simpl.
  rewrite (date_eqb_sym (date r)), (cell_eqb_sym (sleep_duration r)),
    (cell_eqb_sym (quality_score r)), (cell_eqb_sym (bedtime r)),
    (cell_eqb_sym (wake_time r)), (cell_eqb_sym (activity_level r)),
    (cell_eqb_sym (stress_level r)), (cell_eqb_sym (heart_rate r)),
    (cell_eqb_sym (deep_sleep_pct r)), (cell_eqb_sym (rem_sleep_pct r)),
    (cell_eqb_sym (light_sleep_pct r)).
  reflexivity.
Qed.

(** What [drop_duplicates_from] returns: rows of the frame, none of them
    equal to a row already seen, and no two of them equal. *)
Lemma drop_duplicates_from_spec df : forall seen,
  incl (drop_duplicates_from seen df) df
  /\ Forall (fun r => existsb (row_eqb r) seen = false)
            (drop_duplicates_from seen df)
  /\ no_duplicate_rows (drop_duplicates_from seen df).
Proof.
  unfold no_duplicate_rows.
  induction df as [|r rest IH]; intro seen; simpl.
  - repeat split; [apply incl_nil_l|constructor|constructor].
  - destruct (existsb (row_eqb r) seen) eqn:E.
    + destruct (IH seen) as (I & F & N).
      repeat split; trivial. now apply incl_tl.
    + destruct (IH (r :: seen)) as (I & F & N).
      repeat split.
      * now apply incl_cons; [left|apply incl_tl].
      * constructor; trivial.
        eapply Forall_impl; [|exact F].
        simpl. intros x Hx. now apply orb_false_iff in Hx.
      * constructor; trivial.
        intro A. apply InA_alt in A. destruct A as (y & Ey & Iy).
        rewrite Forall_forall in F. specialize (F y Iy). simpl in F.
        apply orb_false_iff in F. destruct F as [F _].
        unfold row_equiv in Ey. rewrite row_eqb_sym in Ey. congruence.
Qed.

Lemma mask_row_date r : date (mask_row r) = None.
Proof. reflexivity. Qed.

Lemma where_nonneg_Some c x : where_nonneg c = Some x -> 0 <= x.
Proof.
  unfold where_nonneg, where_, ge_0. destruct c as [y|]; [|discriminate].
  destruct (Qgeb y 0) eqn:E; [|discriminate].
  intros [= ->]. now apply Qgeb_ge.
Qed.

Lemma mask_row_no_negative r c x :
  In c (numeric_cells (mask_row r)) -> c = Some x -> 0 <= x.
Proof.
  unfold numeric_cells, mask_row. simpl.
  intros H E. subst c.
  repeat (destruct H as [H|H]; [now apply where_nonneg_Some in H|]).
  destruct H.
Qed.

(** A frame whose dates are all NaT comes back from the sort as it was. *)
Lemma sort_values_date_all_NaT df :
  Forall (fun r => date r = None) df -> sort_values_date df = df.
Proof.
  intro F. unfold sort_values_date.
  assert (E1 : filter has_date df = []).
  { induction F as [|r l Hr _ IH]; simpl; trivial.
    assert (H : has_date r = false) by (unfold has_date; now rewrite Hr).
    now rewrite H. }
  assert (E2 : filter (fun r => negb (has_date r)) df = df).
  { clear E1. induction F as [|r l Hr _ IH]; simpl; trivial.
    assert (H : has_date r = false) by (unfold has_date; now rewrite Hr).
    rewrite H. simpl. now f_equal. }
  now rewrite E1, E2.
Qed.

Lemma drop_duplicates_incl df : incl (drop_duplicates df) df.
Proof. apply drop_duplicates_from_spec. Qed.

Lemma masked_dates_NaT data :
  Forall (fun r => date r = None) (drop_duplicates (map mask_row data)).
Proof.
  apply Forall_forall. intros r H.
  apply drop_duplicates_incl, in_map_iff in H.
  destruct H as (r0 & <- & _). apply mask_row_date.
Qed.

(** Because the mask blanks every date, the sort has nothing to order. *)
Lemma clean_data_eq data :
  clean_data data = drop_duplicates (map mask_row data).
Proof.
  unfold clean_data. apply sort_values_date_all_NaT, masked_dates_NaT.
Qed.

(** After [clean_data] no numeric cell is negative: the negative ones hold
    the missing marker (their rows stay). *)
Lemma clean_data_no_negative data : no_negative (clean_data data).
Proof.
  rewrite clean_data_eq. intros r c x H.
  apply drop_duplicates_incl, in_map_iff in H.
  destruct H as (r0 & <- & _). apply mask_row_no_negative.
Qed.

(** After [clean_data] no two rows are equal. *)
Lemma clean_data_no_duplicate_rows data : no_duplicate_rows (clean_data data).
Proof. rewrite clean_data_eq. apply drop_duplicates_from_spec. Qed.

(** After [clean_data] every date is NaT. *)
Lemma clean_data_dates_all_NaT data :
  Forall (fun r => date r = None) (clean_data data).
Proof. rewrite clean_data_eq. apply masked_dates_NaT. Qed.

(** So a cleaned table of two rows or more is never ordered by date. *)
Lemma clean_data_not_sorted data :
  (2 <= List.length (clean_data data))%nat ->
  ~ sorted_by_date (clean_data data).
Proof.
  pose proof (clean_data_dates_all_NaT data) as F.
  destruct (clean_data data) as [|r [|s l]]; simpl; try lia.
  intros _ S. unfold sorted_by_date in S.
  apply Sorted_inv in S. destruct S as [_ H]. apply HdRel_inv in H.
  apply Forall_inv in F. now rewrite F in H.
Qed.

(** A row with a negative cell is kept, with the cell blanked. *)
Example clean_data_masks_negative_cell :
  clean_data [night_with_negative_quality]
  = [mkRow None (Some 6) None (Some 22) (Some 4) (Some 50)
           (Some 5) (Some 65) (Some 18) (Some 22) (Some 60)].
Proof. reflexivity. Qed.

(** C1 at a failing input.  Two distinct nights given with the later date
    first: [clean_data] returns them in the order given, both dates replaced
    by NaT, so the result is not sorted by date. *)
Theorem clean_data_loses_date_order :
  clean_data unsorted_table
  = [mkRow None (Some 8) (Some 80) (Some 23) (Some 7) (Some 40)
           (Some 4) (Some 60) (Some 20) (Some 25) (Some 55);
     mkRow None (Some 6) (Some 70) (Some 22) (Some 4) (Some 50)
           (Some 5) (Some 65) (Some 18) (Some 22) (Some 60)]
  /\ ~ sorted_by_date (clean_data unsorted_table).
Proof.
  split; [reflexivity|].
  apply clean_data_not_sorted. simpl. lia.
Qed.

End CleanFacts.

(** ** Feature engineering *)

Section FeatureFacts.
Import Transformer TableSpec.

Lemma nth_map_Some {A B} (g : A -> B) (l : list A) i r d :
  nth_error l i = Some r -> nth i (map g l) d = g r.
Proof.
  intro H. apply nth_error_nth. rewrite nth_error_map, H. reflexivity.
Qed.

Lemma nth_error_map_seq {A} (f : nat -> A) n i :
  (i < n)%nat -> nth_error (map f (seq 0 n)) i = Some (f i).
Proof.
  intro H. rewrite nth_error_map, nth_error_seq.
  apply Nat.ltb_lt in H. now rewrite H.
Qed.

Lemma diff_from_nth col : forall prev i x p,
  nth_error col i = Some x ->
  nth_error (prev :: col) i = Some p ->
  nth_error (diff_from prev col) i = Some (cell_map2 Qminus x p).
Proof.
  induction col as [|y ys IH]; intros prev i x p Hx Hp.
  - destruct i; discriminate.
  - destruct i as [|j]; simpl in *.
    + now injection Hx as <-; injection Hp as <-.
    + now apply IH.
Qed.

(** Below the top, each entry of [diff] is a value minus the one above. *)
Lemma diff_nth_S col j x p :
  nth_error col (S j) = Some x ->
  nth_error col j = Some p ->
  nth_error (diff col) (S j) = Some (cell_map2 Qminus x p).
Proof.
  destruct col as [|y ys]; [discriminate|]. simpl.
  intros Hx Hp. now apply diff_from_nth.
Qed.

Lemma engineer_features_length data :
  List.length (engineer_features data) = List.length data.
Proof. unfold engineer_features. now rewrite length_map, length_seq. Qed.

(** Row [i] of the result, column by column. *)
Lemma engineer_features_nth data i r :
  nth_error data i = Some r ->
  nth_error (engineer_features data) i
  = Some {| raw := r;
            bedtime_datetime := at_hour (date r) (bedtime r);
            wake_time_datetime := at_hour (date r) (wake_time r);
            sleep_efficiency :=
              cell_map (fun s => s / 100)
                (cell_map2 Qplus (deep_sleep_pct r)
                   (cell_map (fun p => (1#2) * p) (rem_sleep_pct r)));
            bedtime_shift :=
              nth i (map (cell_map Qabs) (diff (map bedtime data))) None;
            sleep_debt := cell_map (fun d => 8 - d) (sleep_duration r);
            day_of_week := dayofweek (date r) |}.
Proof.
  intro H. unfold engineer_features.
  rewrite nth_error_map_seq.
  - rewrite (nth_error_nth _ _ nan_row H).
    now rewrite !(nth_map_Some _ data i r).
  - apply nth_error_Some. congruence.
Qed.



End FeatureFacts.

Section FeatureTheorems.
Import Transformer TableSpec.

Lemma bedtime_shift_top data d :
  data <> [] -> nth 0 (map (cell_map Qabs) (diff (map bedtime data))) d = None.
Proof. destruct data; [congruence|reflexivity]. Qed.

Lemma bedtime_shift_below data j r prev :
  nth_error data (S j) = Some r ->
  nth_error data j = Some prev ->
  nth (S j) (map (cell_map Qabs) (diff (map bedtime data))) None
  = cell_map Qabs (cell_map2 Qminus (bedtime r) (bedtime prev)).
Proof.
  intros Hr Hp. apply nth_map_Some, diff_nth_S.
  - now rewrite nth_error_map, Hr.
  - now rewrite nth_error_map, Hp.
Qed.


Lemma sorted_table_sorted : sorted_by_date sorted_table.
Proof.
  unfold sorted_by_date, sorted_table.
  repeat constructor. simpl. lia.
Qed.



End FeatureTheorems.

(** ** Weekly patterns *)

Section SumFacts.
Import Analyzer.





Lemma Qsum_map_ext {A} (f g : A -> Q) l :
  (forall k, In k l -> f k == g k) ->
  Qsum (map f l) == Qsum (map g l).
Proof.
  induction l as [|a l IH]; intro H; simpl; [reflexivity|].
  rewrite (H a), IH; [reflexivity| |now left].
  intros k Hk. apply H. now right.
Qed.



End SumFacts.

Section GroupFacts.
Import Transformer Analyzer AnalyzerSpec.

Lemma insert_key_In k l x : In x (insert_key k l) <-> x = k \/ In x l.
Proof.
  induction l as [|y ys IH]; simpl.
  - intuition.
  - destruct (k <? y)%Z eqn:L; [simpl; intuition|].
    destruct (k =? y)%Z eqn:E.
    + apply Z.eqb_eq in E. subst y. simpl. intuition.
    + simpl. rewrite IH. intuition.
Qed.

Lemma insert_key_HdRel a k l :
  HdRel Z.lt a l -> (a < k)%Z -> HdRel Z.lt a (insert_key k l).
Proof.
  intros H L. destruct l as [|y ys]; simpl; [now constructor|].
  apply HdRel_inv in H.
  destruct (k <? y)%Z; [now constructor|].
  destruct (k =? y)%Z; now constructor.
Qed.

Lemma insert_key_Sorted k l :
  Sorted Z.lt l -> Sorted Z.lt (insert_key k l).
Proof.
  induction 1 as [|y ys S IH H]; simpl; [repeat constructor|].
  destruct (k <? y)%Z eqn:L.
  - apply Z.ltb_lt in L. repeat constructor; trivial.
  - destruct (k =? y)%Z eqn:E; [now constructor|].
    apply Z.ltb_ge in L. apply Z.eqb_neq in E.
    constructor; trivial. apply insert_key_HdRel; trivial. lia.
Qed.

(** The group keys are the days that occur, each once, in increasing
    order. *)
Lemma group_keys_Sorted data : Sorted Z.lt (group_keys data).
Proof.
  induction data as [|r rest IH]; simpl; [constructor|].
  destruct (day_of_week r); trivial. now apply insert_key_Sorted.
Qed.

Lemma group_keys_NoDup data : NoDup (group_keys data).
Proof.
  pose proof (group_keys_Sorted data) as S.
  apply Sorted_StronglySorted in S; [|exact Z.lt_trans].
  induction S as [|k ks _ IH F]; constructor; trivial.
  intro H. rewrite Forall_forall in F. specialize (F k H). lia.
Qed.

Lemma group_keys_In data k :
  In k (group_keys data) <-> exists r, In r data /\ day_of_week r = Some k.
Proof.
  induction data as [|r rest IH]; simpl.
  - split; [tauto|]. intros (r & [] & _).
  - destruct (day_of_week r) as [d|] eqn:E.
    + rewrite insert_key_In, IH. split.
      * intros [->|(s & Hs & Es)]; [exists r|exists s]; tauto.
      * intros (s & [<-|Hs] & Es); [left; congruence|right; now exists s].
    + rewrite IH. split.
      * intros (s & Hs & Es). exists s. tauto.
      * intros (s & [<-|Hs] & Es); [congruence|now exists s].
Qed.




Lemma dropna_present (col : FRow -> cell) g :
  Forall (fun r => col r <> None) g ->
  dropna (map col g) = map (fun r => value (col r)) g.
Proof.
  induction 1 as [|r g H _ IH]; simpl; trivial.
  destruct (col r); [|congruence]. simpl. now rewrite IH.
Qed.

(** The mean of a non-empty group without missing values. *)
Lemma nanmean_present (col : FRow -> cell) g :
  g <> [] ->
  Forall (fun r => col r <> None) g ->
  nanmean (map col g)
  = Some (Qsum (map (fun r => value (col r)) g)
          / inject_Z (Z.of_nat (List.length g))).
Proof.
  intros N F. unfold nanmean. rewrite (dropna_present col g F).
  destruct g as [|r g']; [congruence|].
  cbn [map]. unfold Qlen. cbn [List.length]. now rewrite length_map.
Qed.

Lemma Qlen_pos {A} (g : list A) :
  g <> [] -> 0 < inject_Z (Z.of_nat (List.length g)).
Proof.
  intro N. destruct g; [congruence|].
  change 0 with (inject_Z 0). rewrite <- Zlt_Qlt. simpl. lia.
Qed.


End GroupFacts.

Section WeeklyTheorems.
Import Transformer Analyzer AnalyzerSpec.








End WeeklyTheorems.




(** The weekly table of the example: the two Wednesdays (day 2) average
    70.0025, written 70.0; the Thursday (day 3) is alone. *)
Example weekly_patterns_week_table :
  map (fun w => (Analyzer.wk_day_of_week w,
                 option_map Qred (Analyzer.wk_quality_score w)))
      (Analyzer.analyze_weekly_patterns AnalyzerExamples.week_table)
  = [(2%Z, Some 70); (3%Z, Some 80)].
Proof. vm_compute. reflexivity. Qed.

(** ** Anomaly detection *)

Section ZScoreFacts.
Import Transformer Analyzer AnalyzerSpec.

Lemma abs_ratio_gt (d s t : R) :
  (0 < s -> 0 <= t -> (Rabs (d / s) > t <-> t * t * (s * s) < d * d))%R.
Proof.
  intros Hs Ht.
  unfold Rdiv. rewrite Rabs_mult, (Rabs_pos_eq (/ s)).
  2:{ left. now apply Rinv_0_lt_compat. }
  pose proof (Rabs_pos d) as Ha.
  assert (Sq : (Rabs d * Rabs d = d * d)%R).
  { unfold Rabs. destruct (Rcase_abs d); lra. }
  rewrite <- Sq. set (a := Rabs d) in *.
  assert (E : (a * / s > t <-> a > t * s)%R).
  { split; intro H.
    - apply Rmult_gt_compat_r with (r := s) in H; trivial.
      rewrite Rmult_assoc, Rinv_l in H by lra. lra.
    - apply Rmult_gt_reg_r with (r := s); trivial.
      rewrite Rmult_assoc, Rinv_l by lra. lra. }
  rewrite E.
  assert (P : (0 <= t * s)%R) by (apply Rmult_le_pos; lra).
  set (u := (t * s)%R) in *.
  replace (t * t * (s * s))%R with (u * u)%R by (unfold u; ring).
  split; intro H.
  - apply Rmult_le_0_lt_compat; lra.
  - destruct (Rlt_le_dec u a) as [L|L]; [exact L|].
    exfalso.
    assert (a * a <= u * u)%R by (apply Rmult_le_compat; lra). lra.
Qed.

(** The test of [abs_zscore_gt] on a positive variance is the comparison of
    the real z-score with the threshold. *)
Lemma zscore_test_real (x mn var t : Q) :
  0 < var ->
  Qltb t 0 || Qltb (t * t * var) ((x - mn) * (x - mn)) = true
  <-> (Rabs (zscore x mn var) > Q2R t)%R.
Proof.
  intro V. unfold zscore.
  assert (V' : (0 < Q2R var)%R).
  { apply Qlt_Rlt in V. now rewrite RMicromega.Q2R_0 in V. }
  pose proof (sqrt_lt_R0 _ V') as S.
  assert (SS : (sqrt (Q2R var) * sqrt (Q2R var) = Q2R var)%R)
    by (apply sqrt_sqrt; lra).
  destruct (Qltb t 0) eqn:E; simpl.
  - apply Qltb_lt, Qlt_Rlt in E. rewrite RMicromega.Q2R_0 in E.
    split; trivial. intros _.
    pose proof (Rabs_pos ((Q2R x - Q2R mn) / sqrt (Q2R var))). lra.
  - apply Qltb_ge, Qle_Rle in E. rewrite RMicromega.Q2R_0 in E.
    rewrite (abs_ratio_gt _ _ _ S E), SS, Qltb_lt.
    rewrite <- !Q2R_mult, <- Q2R_minus, <- Q2R_mult.
    split; [apply Qlt_Rlt|apply Rlt_Qlt].
Qed.

Lemma boolean_index_filter {A B} (f : B -> bool) (col : A -> B) data :
  boolean_index data (map f (map col data)) = filter (fun r => f (col r)) data.
Proof.
  induction data as [|r rest IH]; simpl; trivial.
  now destruct (f (col r)); rewrite IH.
Qed.

Lemma Qsum_nonneg l : Forall (fun x => 0 <= x) l -> 0 <= Qsum l.
Proof. induction 1 as [|x l H _ IH]; simpl; lra. Qed.

Lemma dropna_map_Forall (P : Q -> Prop) (f : Q -> Q) a :
  (forall y, P (f y)) -> Forall P (dropna (map (cell_map f) a)).
Proof.
  intro H. induction a as [|[y|] a IH]; simpl; auto.
Qed.

Lemma nanmean_nonneg a v :
  Forall (fun x => 0 <= x) (dropna a) -> nanmean a = Some v -> 0 <= v.
Proof.
  unfold nanmean. intros F.
  destruct (dropna a) as [|x xs] eqn:E; [discriminate|].
  intros [= <-].
  apply Qsum_nonneg in F.
  assert (P : 0 < Qlen (x :: xs)).
  { unfold Qlen. change 0 with (inject_Z 0). rewrite <- Zlt_Qlt.
    simpl. lia. }
  apply Qle_shift_div_l; [exact P|]. rewrite Qmult_0_l. exact F.
Qed.

Lemma Qsquare_nonneg (d : Q) : 0 <= d * d.
Proof.
  destruct (Qlt_le_dec d 0).
  - setoid_replace (d * d) with ((- d) * (- d)) by ring.
    apply Qmult_le_0_compat; lra.
  - apply Qmult_le_0_compat; lra.
Qed.

(** A variance is never negative. *)
Lemma np_var_nonneg a v : np_var a = Some v -> 0 <= v.
Proof.
  unfold np_var. destruct (np_mean a) as [mn|]; [|discriminate].
  unfold np_mean.
  destruct (forallb _ (map _ a)); [|discriminate].
  apply nanmean_nonneg, dropna_map_Forall.
  intro y. apply Qsquare_nonneg.
Qed.

End ZScoreFacts.

Section AnomalyTheorems.
Import Transformer Analyzer AnalyzerSpec.

Lemma filter_none {A} (keep : A -> bool) l :
  (forall r, keep r = false) -> filter keep l = [].
Proof.
  intro H. induction l as [|r l IH]; simpl; trivial. now rewrite H.
Qed.

Lemma detect_anomalies_filter data column col t :
  float_column column = Ok col ->
  detect_anomalies data column t
  = Ok (filter (fun r => abs_zscore_gt (col r) (np_mean (map col data))
                           (np_var (map col data)) t) data).
Proof.
  intro H. unfold detect_anomalies. rewrite H.
  now rewrite boolean_index_filter.
Qed.

(** C2 (as amended).  For a float column, [detect_anomalies] never raises:
    it returns a table.  When the column has a positive variance the table
    holds exactly the rows, in their order, whose z-score
    [(x - mean) / sqrt(variance)] (variance with divisor n) is in absolute
    value strictly above the threshold.  When the variance is zero, or is
    NaN (an empty column or one with a missing value), the table is empty. *)
Theorem detect_anomalies_zscore
    (data : FTable) (column : string) (col : FRow -> cell) (t : Q) :
  float_column column = Ok col ->
  exists anomalies,
    detect_anomalies data column t = Ok anomalies
    /\ (forall m v,
          np_mean (map col data) = Some m ->
          np_var (map col data) = Some v ->
          ~ v == 0 ->
          exists keep,
            anomalies = filter keep data
            /\ forall r x, col r = Some x ->
                 (keep r = true <-> (Rabs (zscore x m v) > Q2R t)%R))
    /\ ((np_var (map col data) = None
         \/ exists v, np_var (map col data) = Some v /\ v == 0) ->
        anomalies = []).
Proof.
  intro H. eexists. split; [apply detect_anomalies_filter, H|]. split.
  - intros m v Em Ev Nz. rewrite Em, Ev.
    exists (fun r => abs_zscore_gt (col r) (Some m) (Some v) t).
    split; [reflexivity|].
    intros r x Ex. rewrite Ex. unfold abs_zscore_gt.
    destruct (Qeq_bool v 0) eqn:E; [now apply Qeq_bool_iff in E|].
    apply zscore_test_real.
    pose proof (np_var_nonneg _ _ Ev) as P.
    destruct (Qlt_le_dec 0 v) as [L|L]; trivial.
    exfalso. apply Nz. now apply Qle_antisym.
  - intros [Ev|(v & Ev & Z)]; rewrite Ev; apply filter_none; intro r;
      unfold abs_zscore_gt;
      destruct (col r), (np_mean (map col data)); trivial.
    apply Qeq_bool_iff in Z. now rewrite Z.
Qed.

(** On the example week, with threshold 1, the night rated 80 is the one
    anomaly (z = 1.41 against -0.71 and -0.71). *)
Lemma detect_anomalies_zscore_witness :
  exists anomalies,
    detect_anomalies AnalyzerExamples.week_table "quality_score" 1
    = Ok anomalies
    /\ map (fun r => quality_score (raw r)) anomalies = [Some 80].
Proof.
  destruct (detect_anomalies_zscore AnalyzerExamples.week_table
              "quality_score" (fun r => quality_score (raw r)) 1 eq_refl)
    as (anomalies & E & _).
  exists anomalies. split; [exact E|].
  vm_compute in E. injection E as <-. reflexivity.
Defined.

(** C2 (as stated) fails on a constant column: two nights of 7 hours have
    variance zero, and the call returns the empty table; no error is
    raised. *)
Lemma detect_anomalies_constant_column_returns_empty :
  (exists v,
     np_var (map (fun r => sleep_duration (raw r))
                 AnalyzerExamples.constant_duration_table) = Some v
     /\ v == 0)
  /\ detect_anomalies AnalyzerExamples.constant_duration_table
       "sleep_duration" default_threshold = Ok []
  /\ ~ exists e,
         detect_anomalies AnalyzerExamples.constant_duration_table
           "sleep_duration" default_threshold = Raise e.
Proof.
  split; [|split].
  - eexists. split; [vm_compute; reflexivity|reflexivity].
  - vm_compute. reflexivity.
  - intros (e & E). vm_compute in E. discriminate E.
Qed.

End AnomalyTheorems.

(** * Further properties *)

(** ** Risk heuristics: how the four functions agree *)

(** Decides every comparison of the goal from the arithmetic facts at hand. *)
Ltac settle_cmp :=
  repeat match goal with
  | |- context [Qltb ?a ?b] =>
      first [ rewrite (proj2 (Qltb_lt a b)) by lra
            | rewrite (proj2 (Qltb_ge a b)) by lra ]
  | |- context [Qgtb ?a ?b] =>
      first [ rewrite (proj2 (Qgtb_gt a b)) by lra
            | rewrite (proj2 (Qgtb_le a b)) by lra ]
  | |- context [Qgeb ?a ?b] =>
      first [ rewrite (proj2 (Qgeb_ge a b)) by lra
            | rewrite (proj2 (Qgeb_lt a b)) by lra ]
  end.

Section RiskAgreement.
Import Risk RiskText.

Lemma append_if_In b x l s :
  In s (append_if b x l) <-> In s l \/ (b = true /\ s = x).
Proof.
  unfold append_if. destruct b.
  - rewrite in_app_iff. simpl. intuition congruence.
  - intuition congruence.
Qed.

Lemma append_if_nil b x l : append_if b x l = [] <-> b = false /\ l = [].
Proof.
  unfold append_if. destruct b.
  - split; [|intros [C _]; discriminate C].
    intro H. apply app_eq_nil in H. destruct H as [_ H]. discriminate H.
  - intuition.
Qed.

(** When each flag is raised. *)
Lemma predict_health_conditions_In d q dp rp a s h label :
  In label (predict_health_conditions d q dp rp a s h)
  <-> (label = cardiovascular /\ d < 6 /\ 70 < h)
      \/ (label = metabolic /\ (d < 6 \/ 9 < d))
      \/ (label = cognitive /\ (dp < 15 \/ rp < 20))
      \/ (label = mental /\ 7 < s /\ q < 70)
      \/ (label = age_related /\ 50 < a /\ dp < 18).
Proof.
  unfold predict_health_conditions.
  rewrite !append_if_In, !andb_true_iff, !orb_true_iff,
    !Qltb_lt, !Qgtb_gt.
  unfold cardiovascular, metabolic, cognitive, mental, age_related.
  simpl In. tauto.
Qed.

(** When each piece of advice is given. *)
Lemma get_recommendations_In d q dp rp s text :
  In text (get_recommendations d q dp rp s)
  <-> (text = advice_duration /\ d < 7)
      \/ (text = advice_quality /\ q < 75)
      \/ (text = advice_stress /\ 6 < s)
      \/ (text = advice_deep /\ dp < 15)
      \/ (text = advice_rem /\ rp < 20).
Proof.
  unfold get_recommendations.
  rewrite !append_if_In, !Qltb_lt, !Qgtb_gt.
  unfold advice_duration, advice_quality, advice_stress, advice_deep,
    advice_rem.
  simpl In. tauto.
Qed.

End RiskAgreement.

Section RiskAgreementTheorems.
Import Risk RiskText.

Lemma score_as_sum d q dp rp a s h :
  calculate_health_risk_score d q dp rp a s h
  = Z.min 100 (duration_risk d + quality_risk q + deep_risk dp + rem_risk rp
               + age_risk a + stress_risk s + heart_risk h).
Proof. reflexivity. Qed.

(** Brings the ranges of the seven penalties into the context. *)
Ltac penalty_ranges d q dp rp a s h :=
  pose proof (duration_risk_range d); pose proof (quality_risk_range q);
  pose proof (deep_risk_range dp); pose proof (rem_risk_range rp);
  pose proof (age_risk_range a); pose proof (stress_risk_range s);
  pose proof (heart_risk_range h).

Lemma duration_risk_short d : d < 7 -> (15 <= duration_risk d)%Z.
Proof. intro H. unfold duration_risk. cmp_cases; first [lia | exfalso; lra]. Qed.

Lemma duration_risk_long d : 9 < d -> (10 <= duration_risk d)%Z.
Proof. intro H. unfold duration_risk. cmp_cases; first [lia | exfalso; lra]. Qed.

Lemma quality_risk_low q : q < 75 -> (15 <= quality_risk q)%Z.
Proof. intro H. unfold quality_risk. cmp_cases; first [lia | exfalso; lra]. Qed.

Lemma deep_risk_low p : p < 15 -> deep_risk p = 20%Z.
Proof. intro H. unfold deep_risk. now settle_cmp. Qed.

Lemma rem_risk_low p : p < 20 -> rem_risk p = 15%Z.
Proof. intro H. unfold rem_risk. now settle_cmp. Qed.

Lemma stress_risk_high s : 6 < s -> (15 <= stress_risk s)%Z.
Proof. intro H. unfold stress_risk. cmp_cases; first [lia | exfalso; lra]. Qed.

Lemma age_risk_old a : 50 < a -> (10 <= age_risk a)%Z.
Proof. intro H. unfold age_risk. cmp_cases; first [lia | exfalso; lra]. Qed.

Lemma nonempty_has_member {A} (l : list A) : l <> [] -> exists x, In x l.
Proof. destruct l as [|x l]; [congruence|]. exists x. now left. Qed.

(** A flag or a piece of advice is never free: any predicted condition
    comes with a score of at least 10, any recommendation with a score of at
    least 15. *)
Theorem flags_and_advice_cost_points (d q dp rp a s h : Q) :
  (predict_health_conditions d q dp rp a s h <> [] ->
   (10 <= calculate_health_risk_score d q dp rp a s h)%Z)
  /\ (get_recommendations d q dp rp s <> [] ->
      (15 <= calculate_health_risk_score d q dp rp a s h)%Z).
Proof.
  rewrite score_as_sum. penalty_ranges d q dp rp a s h.
  split; intro N; apply nonempty_has_member in N; destruct N as [x N].
  - apply predict_health_conditions_In in N.
    destruct N as [(_ & D & _)|[(_ & [D|D])|[(_ & [D|D])|
                  [(_ & D & _)|(_ & D & _)]]]].
    + assert (d < 7) as D' by lra. apply duration_risk_short in D'. lia.
    + assert (d < 7) as D' by lra. apply duration_risk_short in D'. lia.
    + apply duration_risk_long in D. lia.
    + apply deep_risk_low in D. lia.
    + apply rem_risk_low in D. lia.
    + assert (6 < s) as D' by lra. apply stress_risk_high in D'. lia.
    + apply age_risk_old in D. lia.
  - apply get_recommendations_In in N.
    destruct N as [(_ & D)|[(_ & D)|[(_ & D)|[(_ & D)|(_ & D)]]]].
    + apply duration_risk_short in D. lia.
    + apply quality_risk_low in D. lia.
    + apply stress_risk_high in D. lia.
    + apply deep_risk_low in D. lia.
    + apply rem_risk_low in D. lia.
Qed.

Lemma flags_and_advice_cost_points_witness :
  (10 <= calculate_health_risk_score 10 80 20 25 30 3 60)%Z
  /\ (15 <= calculate_health_risk_score 8 70 20 25 30 3 60)%Z.
Proof.
  split.
  - apply (proj1 (flags_and_advice_cost_points 10 80 20 25 30 3 60)).
    vm_compute. discriminate.
  - apply (proj2 (flags_and_advice_cost_points 8 70 20 25 30 3 60)).
    vm_compute. discriminate.
Defined.

(** The flags and the advice agree: a cardiovascular flag comes with the
    metabolic flag and with the advice to sleep longer; the cognitive flag is
    raised exactly when deep-sleep or REM advice is given; the mental-health
    flag comes with the advice on stress and on quality.  Over-sleeping is
    flagged as a metabolic risk but no advice on duration is given for it. *)
Theorem conditions_match_advice (d q dp rp a s h : Q) :
  let conditions := predict_health_conditions d q dp rp a s h in
  let advice := get_recommendations d q dp rp s in
  (In cardiovascular conditions ->
   In metabolic conditions /\ In advice_duration advice)
  /\ (In cognitive conditions <->
      In advice_deep advice \/ In advice_rem advice)
  /\ (In mental conditions ->
      In advice_stress advice /\ In advice_quality advice)
  /\ (9 < d -> In metabolic conditions /\ ~ In advice_duration advice).
Proof.
  intros conditions advice. subst conditions advice.
  rewrite !predict_health_conditions_In, !get_recommendations_In.
  unfold cardiovascular, metabolic, cognitive, mental, age_related,
    advice_duration, advice_quality, advice_stress, advice_deep, advice_rem.
  split; [|split; [|split]].
  - intros [(_ & D & _)|[(C & _)|[(C & _)|[(C & _)|(C & _)]]]];
      try discriminate C.
    split.
    + right. left. split; [reflexivity|now left].
    + left. split; [reflexivity|lra].
  - split.
    + intros [(C & _)|[(C & _)|[(_ & [D|D])|[(C & _)|(C & _)]]]];
        try discriminate C.
      * left. do 3 right. left. now split.
      * right. do 4 right. now split.
    + intros [[(C & _)|[(C & _)|[(C & _)|[(_ & D)|(C & _)]]]]
             |[(C & _)|[(C & _)|[(C & _)|[(C & _)|(_ & D)]]]]];
        try discriminate C.
      * do 2 right. left. split; [reflexivity|now left].
      * do 2 right. left. split; [reflexivity|now right].
  - intros [(C & _)|[(C & _)|[(C & _)|[(_ & D & E)|(C & _)]]]];
      try discriminate C.
    split.
    + do 2 right. left. split; [reflexivity|lra].
    + right. left. split; [reflexivity|lra].
  - intro D. split.
    + right. left. split; [reflexivity|now right].
    + intros [(_ & E)|[(C & _)|[(C & _)|[(C & _)|(C & _)]]]];
        try discriminate C.
      lra.
Qed.

Lemma conditions_match_advice_witness :
  In metabolic (predict_health_conditions 10 80 20 25 30 3 60)
  /\ ~ In advice_duration (get_recommendations 10 80 20 25 3).
Proof.
  apply (conditions_match_advice 10 80 20 25 30 3 60). reflexivity.
Defined.

End RiskAgreementTheorems.

Section RiskZeroAndBounds.
Import Risk.

Lemma base_impact_range d q s :
  -(7) <= 0 + duration_impact d + quality_impact q + stress_impact s.
Proof.
  unfold duration_impact, quality_impact, stress_impact. cmp_cases; lra.
Qed.

Lemma base_impact_zero d q s :
  0 + duration_impact d + quality_impact q + stress_impact s == 0
  <-> 7 <= d /\ d <= 9 /\ 75 <= q /\ s <= 7.
Proof.
  unfold duration_impact, quality_impact, stress_impact.
  cmp_cases; split; intro H; first [lra | exfalso; lra].
Qed.

Lemma age_factor_upto_100 a : a <= 100 -> age_factor a <= 17#10.
Proof.
  intro H. unfold age_factor. cmp_cases; [|lra].
  assert ((a - 30) / 100 <= 7#10); [|lra].
  apply Qle_shift_div_r; lra.
Qed.

(** A score of zero leaves every input in its penalty-free range. *)
Lemma flags_free_when_zero d q dp rp a s h :
  calculate_health_risk_score d q dp rp a s h = 0%Z ->
  7 <= d /\ d <= 9 /\ 75 <= q /\ 15 <= dp /\ 20 <= rp /\ a < 45 /\ s < 6.
Proof.
  unfold calculate_health_risk_score.
  pose proof (duration_risk_range d) as Hd.
  pose proof (quality_risk_range q) as Hq.
  pose proof (deep_risk_range dp) as Hp.
  pose proof (rem_risk_range rp) as Hr.
  pose proof (age_risk_range a) as Ha.
  pose proof (stress_risk_range s) as Hs.
  pose proof (heart_risk_range h) as Hh.
  intro Z0.
  assert (Ed : duration_risk d = 0%Z) by lia.
  assert (Eq : quality_risk q = 0%Z) by lia.
  assert (Ep : deep_risk dp = 0%Z) by lia.
  assert (Er : rem_risk rp = 0%Z) by lia.
  assert (Ea : age_risk a = 0%Z) by lia.
  assert (Es : stress_risk s = 0%Z) by lia.
  clear - Ed Eq Ep Er Ea Es.
  revert Ed Eq Ep Er Ea Es.
  unfold duration_risk, quality_risk, deep_risk, rem_risk, age_risk,
    stress_risk.
  cmp_cases; intros; try discriminate; repeat split; lra.
Qed.

(** A score of zero means all clear: no condition is predicted, nothing is
    recommended and the estimated impact on life expectancy is zero. *)
Theorem zero_score_all_clear (d q dp rp a s h : Q) :
  calculate_health_risk_score d q dp rp a s h = 0%Z ->
  predict_health_conditions d q dp rp a s h = []
  /\ get_recommendations d q dp rp s = []
  /\ estimate_life_expectancy_impact d q s a == 0.
Proof.
  intro Z0.
  destruct (flags_free_when_zero d q dp rp a s h Z0)
    as (D7 & D9 & Q75 & P15 & R20 & A45 & S6).
  split; [|split].
  - unfold predict_health_conditions. settle_cmp. reflexivity.
  - unfold get_recommendations. settle_cmp. reflexivity.
  - unfold estimate_life_expectancy_impact.
    assert (B : 0 + duration_impact d + quality_impact q + stress_impact s
                == 0) by (apply base_impact_zero; lra).
    rewrite B. ring.
Qed.

Lemma zero_score_all_clear_witness :
  predict_health_conditions 8 80 20 25 30 3 60 = []
  /\ get_recommendations 8 80 20 25 3 = []
  /\ estimate_life_expectancy_impact 8 80 3 30 == 0.
Proof.
  apply (zero_score_all_clear 8 80 20 25 30 3 60). reflexivity.
Defined.

(** The estimated impact is zero exactly when sleep lasts 7 to 9 hours,
    quality is at least 75 and stress at most 7; and for an age of at most
    100, the largest the form accepts, it is never below -11.9 years. *)
Theorem life_expectancy_impact_bounds (d q s a : Q) :
  (estimate_life_expectancy_impact d q s a == 0
   <-> 7 <= d /\ d <= 9 /\ 75 <= q /\ s <= 7)
  /\ (a <= 100 -> -(119#10) <= estimate_life_expectancy_impact d q s a).
Proof.
  unfold estimate_life_expectancy_impact.
  pose proof (base_impact_range d q s) as Lo.
  pose proof (base_impact_nonpositive d q s) as Hi.
  pose proof (age_factor_positive a) as F.
  rewrite <- (base_impact_zero d q s).
  set (b := 0 + duration_impact d + quality_impact q + stress_impact s) in *.
  set (f := age_factor a) in *.
  split.
  - split; intro H.
    + apply Qmult_integral in H. destruct H as [H|H]; [exact H|lra].
    + rewrite H. ring.
  - intro A. apply age_factor_upto_100 in A. fold f in A. nra.
Qed.

Lemma life_expectancy_impact_bounds_witness :
  -(119#10) <= estimate_life_expectancy_impact 5 50 9 100.
Proof.
  apply (proj2 (life_expectancy_impact_bounds 5 50 9 100)).
  apply Qle_refl.
Defined.

End RiskZeroAndBounds.

(** ** Generated data: the constraints and the derived columns *)

Section GeneratedRows.
Import Loader.

Lemma np_clip_range x lo hi : lo <= hi -> lo <= np_clip x lo hi <= hi.
Proof.
  intro H. unfold np_clip. split.
  - apply Q.min_glb; [apply Q.le_max_r|exact H].
  - apply Q.le_min_r.
Qed.

(** [np.mod(x, 24)] lies in [0, 24) and differs from [x] by a multiple of
    24. *)
Lemma np_mod_24_range x : 0 <= np_mod x 24 < 24.
Proof.
  unfold np_mod.
  pose proof (Qfloor_le (x / 24)) as Lo.
  pose proof (Qlt_floor (x / 24)) as Hi.
  rewrite inject_Z_plus in Hi. change (inject_Z 1) with 1 in Hi.
  set (k := inject_Z (Qfloor (x / 24))) in *.
  assert (E : x / 24 * 24 == x) by field.
  set (y := x / 24) in *.
  split; lra.
Qed.

Variable RNG : Type.
Variable np_random_seed : Z -> RNG.
Variable normal : Q -> Q -> RNG -> Q * RNG.

Local Abbreviation run_generator := (run_generator RNG np_random_seed normal).

(** A run that returns, returns rows built from drawn columns. *)
Lemma run_generator_rows n g df g' :
  run_generator n g = Ok (df, g') ->
  exists c, df = map (finish c) (seq 0 (Z.to_nat n)).
Proof.
  rewrite run_generator_reseeds. intro E.
  destruct (Z.lt_ge_cases n 0) as [N|N].
  { rewrite generate_data_negative in E by trivial. discriminate E. }
  destruct (Z.lt_ge_cases 2912808 n) as [O|O].
  { rewrite generate_data_overflow in E by trivial. discriminate E. }
  destruct (generate_data_nonneg RNG normal n (np_random_seed 42)
              (conj N O)) as (c & g1 & E1 & _).
  rewrite E1 in E. injection E as <- _. now exists c.
Qed.

(** Every generated row respects the constraints of [_apply_constraints]:
    sleep duration in [4, 12], quality score in [0, 100], activity level in
    [0, 120], stress level in [0, 10] and heart rate in [45, 85], none of
    them missing. *)
Theorem generated_rows_within_constraints n g df g' :
  run_generator n g = Ok (df, g') ->
  forall r, In r df ->
    exists sd qs al sl hr,
      sleep_duration r = Some sd /\ 4 <= sd <= 12
      /\ quality_score r = Some qs /\ 0 <= qs <= 100
      /\ activity_level r = Some al /\ 0 <= al <= 120
      /\ stress_level r = Some sl /\ 0 <= sl <= 10
      /\ heart_rate r = Some hr /\ 45 <= hr <= 85.
Proof.
  intros E r H. apply run_generator_rows in E. destruct E as [c ->].
  apply in_map_iff in H. destruct H as (i & <- & _).
  unfold finish. simpl.
  do 5 eexists.
  split; [reflexivity|]. split; [apply np_clip_range; discriminate|].
  split; [reflexivity|]. split; [apply np_clip_range; discriminate|].
  split; [reflexivity|]. split; [apply np_clip_range; discriminate|].
  split; [reflexivity|]. split; [apply np_clip_range; discriminate|].
  split; [reflexivity|]. apply np_clip_range; discriminate.
Qed.

(** In every generated row the wake time is an hour of the day, in
    [0, 24), the light-sleep percentage is what deep and REM sleep leave of
    100, and the date, the bedtime and the two percentages are present. *)
Theorem generated_rows_derived_columns n g df g' :
  run_generator n g = Ok (df, g') ->
  forall r, In r df ->
    exists wt dp rp lp,
      wake_time r = Some wt /\ 0 <= wt < 24
      /\ deep_sleep_pct r = Some dp
      /\ rem_sleep_pct r = Some rp
      /\ light_sleep_pct r = Some lp /\ lp == 100 - dp - rp
      /\ bedtime r <> None
      /\ date r <> None.
Proof.
  intros E r H. apply run_generator_rows in E. destruct E as [c ->].
  apply in_map_iff in H. destruct H as (i & <- & _).
  unfold finish. simpl.
  do 4 eexists.
  split; [reflexivity|]. split; [apply np_mod_24_range|].
  do 3 (split; [reflexivity|]).
  split; [reflexivity|]. split; discriminate.
Qed.

End GeneratedRows.

Lemma generated_rows_within_constraints_witness :
  exists df g',
    ToyRNG.run_generator 3 1%Z = Ok (df, g')
    /\ forall r, In r df ->
         exists sd qs al sl hr,
           sleep_duration r = Some sd /\ 4 <= sd <= 12
           /\ quality_score r = Some qs /\ 0 <= qs <= 100
           /\ activity_level r = Some al /\ 0 <= al <= 120
           /\ stress_level r = Some sl /\ 0 <= sl <= 10
           /\ heart_rate r = Some hr /\ 45 <= hr <= 85.
Proof.
  assert (E : exists df g', ToyRNG.run_generator 3 1%Z = Ok (df, g'))
    by (vm_compute; eauto).
  destruct E as (df & g' & E). exists df, g'. split; [exact E|].
  exact (generated_rows_within_constraints
           ToyRNG.RNG ToyRNG.np_random_seed ToyRNG.normal 3 1%Z df g' E).
Defined.

Lemma generated_rows_derived_columns_witness :
  exists df g',
    ToyRNG.run_generator 3 1%Z = Ok (df, g')
    /\ forall r, In r df ->
         exists wt dp rp lp,
           wake_time r = Some wt /\ 0 <= wt < 24
           /\ deep_sleep_pct r = Some dp
           /\ rem_sleep_pct r = Some rp
           /\ light_sleep_pct r = Some lp /\ lp == 100 - dp - rp
           /\ bedtime r <> None
           /\ date r <> None.
Proof.
  assert (E : exists df g', ToyRNG.run_generator 3 1%Z = Ok (df, g'))
    by (vm_compute; eauto).
  destruct E as (df & g' & E). exists df, g'. split; [exact E|].
  exact (generated_rows_derived_columns
           ToyRNG.RNG ToyRNG.np_random_seed ToyRNG.normal 3 1%Z df g' E).
Defined.

(** ** Cleaning: what it keeps *)

Section CleanMore.
Import Transformer TableSpec.

Lemma cell_eqb_refl c : cell_eqb c c = true.
Proof. destruct c; simpl; trivial. apply Qeq_bool_iff, Qeq_refl. Qed.

Lemma row_eqb_refl r : row_eqb r r = true.
Proof.
  unfold row_eqb, numeric_cells. simpl.
  rewrite !cell_eqb_refl. destruct (date r); simpl; trivial.
  now rewrite Z.eqb_refl.
Qed.

Lemma where_nonneg_idempotent c : where_nonneg (where_nonneg c) = where_nonneg c.
Proof.
  unfold where_nonneg, where_. destruct (ge_0 c) eqn:E; [now rewrite E|].
  reflexivity.
Qed.

Lemma mask_row_idempotent r : mask_row (mask_row r) = mask_row r.
Proof.
  unfold mask_row. simpl. now rewrite !where_nonneg_idempotent.
Qed.

(** A frame without duplicates comes back from [drop_duplicates] as it
    was. *)
Lemma drop_duplicates_from_fixed df : forall seen,
  no_duplicate_rows df ->
  Forall (fun r => existsb (row_eqb r) seen = false) df ->
  drop_duplicates_from seen df = df.
Proof.
  unfold no_duplicate_rows.
  induction df as [|r rest IH]; intros seen N F; simpl; trivial.
  inversion N as [|? ? Hr N']; subst.
  inversion F as [|? ? Fr F']; subst.
  rewrite Fr. f_equal. apply IH; trivial.
  apply Forall_forall. intros x Hx. simpl.
  rewrite Forall_forall in F'. rewrite (F' x Hx), orb_false_r.
  destruct (row_eqb x r) eqn:E; trivial.
  exfalso. apply Hr. apply InA_alt. exists x. split; trivial.
  unfold row_equiv. now rewrite row_eqb_sym.
Qed.

(** Every row of the frame is in the result of [drop_duplicates_from],
    itself or as an equal row, unless an equal row was seen before. *)
Lemma drop_duplicates_from_covers df : forall seen r,
  In r df ->
  (exists s, In s seen /\ row_eqb r s = true)
  \/ (exists s, In s (drop_duplicates_from seen df) /\ row_eqb r s = true).
Proof.
  induction df as [|x rest IH]; intros seen r H; [destruct H|].
  simpl. destruct (existsb (row_eqb x) seen) eqn:E.
  - destruct H as [<-|H]; [|now apply IH].
    left. apply existsb_exists in E. exact E.
  - destruct H as [<-|H].
    + right. exists x. split; [now left|apply row_eqb_refl].
    + destruct (IH (x :: seen) r H) as [(s & [<-|Hs] & Es)|(s & Hs & Es)].
      * right. exists x. split; [now left|exact Es].
      * left. now exists s.
      * right. exists s. split; [now right|exact Es].
Qed.

Lemma drop_duplicates_from_length df : forall seen,
  (List.length (drop_duplicates_from seen df) <= List.length df)%nat.
Proof.
  induction df as [|x rest IH]; intro seen; simpl; [lia|].
  destruct (existsb (row_eqb x) seen); simpl.
  - specialize (IH seen). lia.
  - specialize (IH (x :: seen)). lia.
Qed.

(** What [clean_data] does establish: no numeric cell of the result is
    negative, no two rows of the result are equal, and the result has at
    most as many rows as the input. *)
Theorem clean_data_postconditions (data : Table) :
  no_negative (clean_data data)
  /\ no_duplicate_rows (clean_data data)
  /\ (List.length (clean_data data) <= List.length data)%nat.
Proof.
  split; [apply clean_data_no_negative|].
  split; [apply clean_data_no_duplicate_rows|].
  rewrite clean_data_eq. unfold drop_duplicates.
  etransitivity; [apply drop_duplicates_from_length|].
  now rewrite length_map.
Qed.

(** [clean_data] drops a row only as a duplicate, never for a negative
    value: every input row is in the result with its negative cells and its
    date blanked, itself or as an equal row. *)
Theorem clean_data_keeps_every_row (data : Table) (r : Row) :
  In r data ->
  exists s, In s (clean_data data) /\ row_eqb (mask_row r) s = true.
Proof.
  intro H. rewrite clean_data_eq. unfold drop_duplicates.
  destruct (drop_duplicates_from_covers (map mask_row data) [] (mask_row r))
    as [(s & [] & _)|C]; [now apply in_map|exact C].
Qed.

Lemma clean_data_keeps_every_row_witness :
  exists s,
    In s (clean_data [night_with_negative_quality])
    /\ row_eqb (mask_row night_with_negative_quality) s = true.
Proof.
  apply (clean_data_keeps_every_row [night_with_negative_quality]).
  now left.
Defined.

(** Cleaning twice is cleaning once. *)
Theorem clean_data_idempotent (data : Table) :
  clean_data (clean_data data) = clean_data data.
Proof.
  rewrite (clean_data_eq (clean_data data)).
  assert (M : map mask_row (clean_data data) = clean_data data).
  { rewrite <- (map_id (clean_data data)) at 2.
    apply map_ext_in. intros r H.
    rewrite clean_data_eq in H.
    apply drop_duplicates_incl, in_map_iff in H.
    destruct H as (r0 & <- & _). apply mask_row_idempotent. }
  rewrite M. unfold drop_duplicates.
  apply drop_duplicates_from_fixed.
  - apply clean_data_no_duplicate_rows.
  - apply Forall_forall. reflexivity.
Qed.

End CleanMore.

(** ** Feature engineering: missing values and generated data *)

Section FeatureMore.
Import Transformer TableSpec.

Lemma nth_error_engineer_features data i fr :
  nth_error (engineer_features data) i = Some fr ->
  exists r, nth_error data i = Some r
            /\ nth_error (engineer_features data) i
               = Some {| raw := r;
                         bedtime_datetime := at_hour (date r) (bedtime r);
                         wake_time_datetime := at_hour (date r) (wake_time r);
                         sleep_efficiency :=
                           cell_map (fun s => s / 100)
                             (cell_map2 Qplus (deep_sleep_pct r)
                                (cell_map (fun p => (1#2) * p)
                                   (rem_sleep_pct r)));
                         bedtime_shift :=
                           nth i (map (cell_map Qabs)
                                    (diff (map bedtime data))) None;
                         sleep_debt :=
                           cell_map (fun d => 8 - d) (sleep_duration r);
                         day_of_week := dayofweek (date r) |}.
Proof.
  intro H.
  assert (Hi : (i < List.length data)%nat).
  { rewrite <- engineer_features_length. apply nth_error_Some. congruence. }
  destruct (nth_error data i) as [r|] eqn:Er;
    [|apply nth_error_None in Er; lia].
  exists r. split; trivial. now apply engineer_features_nth.
Qed.

(** [bedtime_shift] on any table: it is the missing marker exactly for the
    first row, for a row whose bedtime is missing and for the row below such
    a row; wherever it is present it is not negative. *)
Theorem bedtime_shift_missing_iff (data : Table) (i : nat) (fr : FRow) :
  nth_error (engineer_features data) i = Some fr ->
  (bedtime_shift fr = None
   <-> i = 0%nat
       \/ bedtime (raw fr) = None
       \/ exists j above,
            i = S j /\ nth_error data j = Some above /\ bedtime above = None)
  /\ (forall v, bedtime_shift fr = Some v -> 0 <= v).
Proof.
  intro H. destruct (nth_error_engineer_features data i fr H) as (r & Er & E).
  rewrite E in H. injection H as <-. simpl.
  destruct i as [|j].
  - rewrite bedtime_shift_top by (intro N; now rewrite N in Er).
    split; [|discriminate]. split; auto.
  - assert (Hj : (j < List.length data)%nat).
    { assert (nth_error data (S j) <> None) as N by congruence.
      apply nth_error_Some in N. lia. }
    destruct (nth_error data j) as [above|] eqn:Ea;
      [|apply nth_error_None in Ea; lia].
    rewrite (bedtime_shift_below data j r above Er Ea).
    destruct (bedtime r) as [b|], (bedtime above) as [b'|] eqn:Eb;
      cbn [cell_map cell_map2].
    + split.
      * split; [discriminate|].
        intros [C|[C|(j' & above' & Ej & Ea' & C)]]; try discriminate.
        injection Ej as <-. rewrite Ea in Ea'. injection Ea' as <-.
        congruence.
      * intros v Hv.
        assert (Ev : Qabs (b - b') = v) by congruence.
        rewrite <- Ev. apply Qabs_nonneg.
    + split; [|discriminate]. split; trivial. intros _.
      right. right. now exists j, above.
    + split; [|discriminate]. split; auto.
    + split; [|discriminate]. split; auto.
Qed.

Lemma bedtime_shift_missing_iff_witness :
  exists fr,
    nth_error (engineer_features sorted_table) 1 = Some fr
    /\ (forall v, bedtime_shift fr = Some v -> 0 <= v).
Proof.
  eexists. split; [reflexivity|].
  exact (proj2 (bedtime_shift_missing_iff sorted_table 1 _ eq_refl)).
Defined.

End FeatureMore.

Section GeneratedFeatures.
Import Loader Transformer.

Variable RNG : Type.
Variable np_random_seed : Z -> RNG.
Variable normal : Q -> Q -> RNG -> Q * RNG.

Local Abbreviation run_generator := (run_generator RNG np_random_seed normal).

(** Row [i] of a generated table: its date, its bedtime and its hours of
    sleep. *)
Lemma run_generator_row n g df g' i r :
  run_generator n g = Ok (df, g') ->
  nth_error df i = Some r ->
  date r = Some (start_date + Z.of_nat i)%Z
  /\ bedtime r <> None
  /\ exists sd, sleep_duration r = Some sd /\ 4 <= sd <= 12.
Proof.
  rewrite run_generator_reseeds. intros E Hi.
  destruct (Z.lt_ge_cases n 0) as [N|N].
  { rewrite generate_data_negative in E by trivial. discriminate E. }
  destruct (Z.lt_ge_cases 2912808 n) as [O|O].
  { rewrite generate_data_overflow in E by trivial. discriminate E. }
  destruct (generate_data_nonneg RNG normal n (np_random_seed 42)
              (conj N O)) as (c & g1 & E1 & D).
  rewrite E1 in E. injection E as <- _.
  assert (L : (i < Z.to_nat n)%nat).
  { assert (nth_error (map (finish c) (seq 0 (Z.to_nat n))) i <> None) as X
      by congruence.
    apply nth_error_Some in X. now rewrite length_map, length_seq in X. }
  rewrite nth_error_map_seq in Hi by trivial. injection Hi as <-.
  split; [|split].
  - rewrite finish_date, D.
    change 0%Z with ((fun x => (start_date + x)%Z) (-start_date)%Z) at 1.
    rewrite map_nth. f_equal. f_equal.
    rewrite nth_indep with (d' := 0%Z) by now rewrite range_length.
    now apply range_nth.
  - discriminate.
  - eexists. split; [reflexivity|]. apply np_clip_range. discriminate.
Qed.

Lemma generator_length n g df g' :
  run_generator n g = Ok (df, g') -> List.length df = Z.to_nat n.
Proof.
  intro E. apply run_generator_rows in E. destruct E as [c ->].
  now rewrite length_map, length_seq.
Qed.

(** Feature engineering on generated data: row [i] falls on weekday
    [(2 + i) mod 7] (the first date, 2025-01-01, is a Wednesday), its sleep
    debt lies in [-4, 4], and its bedtime shift is missing for the first row
    only. *)
Theorem generated_features n g df g' :
  run_generator n g = Ok (df, g') ->
  forall i fr,
    nth_error (engineer_features df) i = Some fr ->
    day_of_week fr = Some ((2 + Z.of_nat i) mod 7)%Z
    /\ (exists debt, sleep_debt fr = Some debt /\ -(4) <= debt <= 4)
    /\ (bedtime_shift fr = None <-> i = 0%nat).
Proof.
  intros E i fr H.
  destruct (nth_error_engineer_features df i fr H) as (r & Er & Efr).
  destruct (run_generator_row n g df g' i r E Er) as (D & B & sd & Sd & R).
  rewrite Efr in H. injection H as <-.
  cbn [raw bedtime_shift sleep_debt day_of_week] in *.
  split; [|split].
  - rewrite D. unfold dayofweek, start_date. f_equal.
    replace (20089 + Z.of_nat i + 3)%Z with (2 + Z.of_nat i + 2870 * 7)%Z
      by lia.
    apply Z.mod_add. discriminate.
  - rewrite Sd. cbn [cell_map]. eexists. split; [reflexivity|]. lra.
  - destruct i as [|j].
    + rewrite bedtime_shift_top by (intro N; now rewrite N in Er).
      tauto.
    + assert (Hj : (j < List.length df)%nat).
      { assert (nth_error df (S j) <> None) as N by congruence.
        apply nth_error_Some in N. lia. }
      destruct (nth_error df j) as [above|] eqn:Ea;
        [|apply nth_error_None in Ea; lia].
      destruct (run_generator_row n g df g' j above E Ea) as (_ & B' & _).
      rewrite (bedtime_shift_below df j r above Er Ea).
      destruct (bedtime r); [|congruence].
      destruct (bedtime above); [|congruence].
      cbn [cell_map cell_map2]. split; discriminate.
Qed.

End GeneratedFeatures.

Lemma generated_features_witness :
  exists df g' fr,
    ToyRNG.run_generator 10 1%Z = Ok (df, g')
    /\ nth_error (Transformer.engineer_features df) 8 = Some fr
    /\ Transformer.day_of_week fr = Some 3%Z.
Proof.
  assert (E : exists df g', ToyRNG.run_generator 10 1%Z = Ok (df, g'))
    by (vm_compute; eauto).
  destruct E as (df & g' & E).
  destruct (nth_error (Transformer.engineer_features df) 8) as [fr|] eqn:F.
  - exists df, g', fr. split; [exact E|]. split; [exact F|].
    exact (proj1 (generated_features ToyRNG.RNG ToyRNG.np_random_seed
                    ToyRNG.normal 10 1%Z df g' E 8%nat fr F)).
  - exfalso. apply nth_error_None in F.
    rewrite engineer_features_length in F.
    rewrite (generator_length ToyRNG.RNG ToyRNG.np_random_seed
               ToyRNG.normal 10 1%Z df g' E) in F. lia.
Defined.

(** ** Column statistics: minimum, maximum, mean and median *)

Section ColumnFacts.
Import Analyzer.

Lemma dropna_In x a : In x (dropna a) <-> In (Some x) a.
Proof.
  induction a as [|[y|] a IH]; simpl.
  - tauto.
  - rewrite IH. split; intros [H|H]; auto; left; congruence.
  - rewrite IH. split; [auto|]. intros [H|H]; [discriminate H|exact H].
Qed.

Lemma Qmin_cases x y : Qmin x y = x \/ Qmin x y = y.
Proof.
  unfold Qmin, GenericMinMax.gmin. destruct (x ?= y); auto.
Qed.

Lemma Qmax_cases x y : Qmax x y = x \/ Qmax x y = y.
Proof.
  unfold Qmax, GenericMinMax.gmax. destruct (x ?= y); auto.
Qed.

(** The minimum of a list is one of its values and is below all of them. *)
Lemma fold_Qmin_In xs : forall x, In (fold_left Qmin xs x) (x :: xs).
Proof.
  induction xs as [|y ys IH]; intro x; simpl; [now left|].
  destruct (IH (Qmin x y)) as [H|H]; [|now right; right].
  rewrite <- H. destruct (Qmin_cases x y) as [E|E]; rewrite E; auto.
Qed.

Lemma fold_Qmin_le xs : forall x y,
  In y (x :: xs) -> fold_left Qmin xs x <= y.
Proof.
  induction xs as [|z zs IH]; intros x y H; simpl.
  - destruct H as [<-|[]]. apply Qle_refl.
  - destruct H as [<-|[<-|H]].
    + eapply Qle_trans; [apply IH; now left|apply Q.le_min_l].
    + eapply Qle_trans; [apply IH; now left|apply Q.le_min_r].
    + apply IH. now right.
Qed.

Lemma fold_Qmax_In xs : forall x, In (fold_left Qmax xs x) (x :: xs).
Proof.
  induction xs as [|y ys IH]; intro x; simpl; [now left|].
  destruct (IH (Qmax x y)) as [H|H]; [|now right; right].
  rewrite <- H. destruct (Qmax_cases x y) as [E|E]; rewrite E; auto.
Qed.

Lemma fold_Qmax_ge xs : forall x y,
  In y (x :: xs) -> y <= fold_left Qmax xs x.
Proof.
  induction xs as [|z zs IH]; intros x y H; simpl.
  - destruct H as [<-|[]]. apply Qle_refl.
  - destruct H as [<-|[<-|H]].
    + eapply Qle_trans; [apply Q.le_max_l|apply IH; now left].
    + eapply Qle_trans; [apply Q.le_max_r|apply IH; now left].
    + apply IH. now right.
Qed.

(** [nanmin] and [nanmax] are present together, exactly when the column has
    a value; they are values of the column and bound all of them. *)
Lemma nanmin_nanmax_spec a :
  match nanmin a, nanmax a with
  | Some lo, Some hi =>
      In (Some lo) a /\ In (Some hi) a
      /\ forall x, In (Some x) a -> lo <= x <= hi
  | None, None => forall x, ~ In (Some x) a
  | _, _ => False
  end.
Proof.
  unfold nanmin, nanmax.
  destruct (dropna a) as [|x xs] eqn:E.
  - intros x H. apply dropna_In in H. now rewrite E in H.
  - split; [|split].
    + apply dropna_In. rewrite E. apply fold_Qmin_In.
    + apply dropna_In. rewrite E. apply fold_Qmax_In.
    + intros y H. apply dropna_In in H. rewrite E in H.
      split; [now apply fold_Qmin_le|now apply fold_Qmax_ge].
Qed.

(** A sum lies between the count times a lower and an upper bound. *)
Lemma Qsum_bounds lo hi xs :
  (forall x, In x xs -> lo <= x <= hi) ->
  Qlen xs * lo <= Qsum xs <= Qlen xs * hi.
Proof.
  unfold Qlen. induction xs as [|x xs IH]; intro H.
  - simpl. change (inject_Z 0) with 0. split; lra.
  - cbn [Qsum List.length]. rewrite Nat2Z.inj_succ. unfold Z.succ.
    rewrite inject_Z_plus. change (inject_Z 1) with 1.
    destruct (H x (or_introl eq_refl)) as [L U].
    destruct IH as [L' U']; [intros y Hy; apply H; now right|].
    split; lra.
Qed.

Lemma Qlen_cons_pos x xs : 0 < Qlen (x :: xs).
Proof.
  unfold Qlen. change 0 with (inject_Z 0). rewrite <- Zlt_Qlt.
  simpl. lia.
Qed.

(** The mean of the values lies between any bounds on them. *)
Lemma nanmean_bounds lo hi a m :
  (forall x, In (Some x) a -> lo <= x <= hi) ->
  nanmean a = Some m -> lo <= m <= hi.
Proof.
  intros H. unfold nanmean.
  destruct (dropna a) as [|x xs] eqn:E; [discriminate|].
  intro M. assert (Em : Qsum (x :: xs) / Qlen (x :: xs) = m) by congruence.
  rewrite <- Em.
  pose proof (Qlen_cons_pos x xs) as P.
  destruct (Qsum_bounds lo hi (x :: xs)) as [L U].
  { intros y Hy. apply H, dropna_In. now rewrite E. }
  split.
  - apply Qle_shift_div_l; trivial. lra.
  - apply Qle_shift_div_r; trivial. lra.
Qed.

Lemma insert_value_In x l y : In y (insert_value x l) <-> y = x \/ In y l.
Proof.
  induction l as [|z zs IH]; simpl; [intuition|].
  destruct (Qle_bool x z); simpl; [intuition|]. rewrite IH. intuition.
Qed.

Lemma insert_value_length x l :
  List.length (insert_value x l) = S (List.length l).
Proof.
  induction l as [|z zs IH]; simpl; trivial.
  destruct (Qle_bool x z); simpl; [trivial|now rewrite IH].
Qed.

Lemma sorted_values_In l y : In y (sorted_values l) <-> In y l.
Proof.
  induction l as [|x xs IH]; simpl; [tauto|].
  rewrite insert_value_In, IH. intuition.
Qed.

Lemma sorted_values_length l :
  List.length (sorted_values l) = List.length l.
Proof.
  induction l as [|x xs IH]; simpl; trivial.
  now rewrite insert_value_length, IH.
Qed.

(** The median of the values lies between any bounds on them. *)
Lemma nanmedian_bounds lo hi a m :
  (forall x, In (Some x) a -> lo <= x <= hi) ->
  nanmedian a = Some m -> lo <= m <= hi.
Proof.
  intros H. unfold nanmedian.
  destruct (dropna a) as [|x xs] eqn:E; [discriminate|].
  set (s := sorted_values (x :: xs)).
  assert (Ls : List.length s = S (List.length xs))
    by (unfold s; now rewrite sorted_values_length).
  assert (B : forall i, (i < List.length s)%nat -> lo <= nth i s 0 <= hi).
  { intros i Hi. apply H, dropna_In. rewrite E.
    apply (sorted_values_In (x :: xs)). now apply nth_In. }
  assert (Half : (List.length s / 2 < List.length s)%nat)
    by (apply Nat.div_lt; lia).
  destruct (Nat.even (List.length s)); intro M.
  - assert (Em : (nth (List.length s / 2 - 1) s 0
                  + nth (List.length s / 2) s 0) / 2 = m) by congruence.
    rewrite <- Em.
    destruct (B (List.length s / 2 - 1)%nat) as [L1 U1]; [lia|].
    destruct (B (List.length s / 2)%nat) as [L2 U2]; [lia|].
    split; [apply Qle_shift_div_l|apply Qle_shift_div_r]; lra.
  - assert (Em : nth (List.length s / 2) s 0 = m) by congruence.
    rewrite <- Em. now apply B.
Qed.

End ColumnFacts.

Section BasicStatsTheorems.
Import Transformer Analyzer.

Lemma nanvar_nonneg a v : nanvar a = Some v -> 0 <= v.
Proof.
  unfold nanvar. destruct (dropna a) as [|x [|y ys]]; try discriminate.
  set (xs := x :: y :: ys). set (mn := Qsum xs / Qlen xs).
  intro H.
  assert (Ev : Qsum (map (fun x => (x - mn) * (x - mn)) xs) / (Qlen xs - 1)
               = v) by congruence.
  rewrite <- Ev.
  assert (P : 0 < Qlen xs - 1).
  { unfold Qlen, xs. cbn [List.length].
    rewrite !Nat2Z.inj_succ. unfold Z.succ. rewrite !inject_Z_plus.
    change (inject_Z 1) with 1.
    assert (0 <= inject_Z (Z.of_nat (List.length ys))).
    { change 0 with (inject_Z 0). rewrite <- Zle_Qle. lia. }
    lra. }
  apply Qle_shift_div_l; trivial. rewrite Qmult_0_l.
  apply Qsum_nonneg, Forall_forall. intros z Hz.
  apply in_map_iff in Hz. destruct Hz as (w & <- & _).
  apply Qsquare_nonneg.
Qed.

(** The statistics of a column that has a value: minimum and maximum are
    values of the column and bound all of them, the median lies between them,
    and the mean is present. *)
Lemma column_stats_present a x :
  In (Some x) a ->
  exists lo hi md,
    min (column_stats a) = Some lo
    /\ max (column_stats a) = Some hi
    /\ median (column_stats a) = Some md
    /\ mean (column_stats a) <> None
    /\ In (Some lo) a /\ In (Some hi) a
    /\ (forall y, In (Some y) a -> lo <= y <= hi)
    /\ lo <= md <= hi.
Proof.
  intro Hx. unfold column_stats. cbn [min max mean median].
  pose proof (nanmin_nanmax_spec a) as S.
  pose proof (fun lo hi m => nanmedian_bounds lo hi a m) as Bd.
  destruct (nanmin a) as [lo|], (nanmax a) as [hi|];
    [|contradiction|contradiction|exfalso; now apply (S x)].
  destruct S as (Ilo & Ihi & B).
  assert (N : dropna a <> []).
  { intro E. apply dropna_In in Hx. now rewrite E in Hx. }
  assert (M : exists md, nanmedian a = Some md).
  { unfold nanmedian. destruct (dropna a) as [|y ys]; [congruence|].
    destruct (Nat.even _); eauto. }
  destruct M as (md & M).
  exists lo, hi, md.
  split; [reflexivity|]. split; [reflexivity|]. split; [exact M|].
  split.
  { unfold nanmean. destruct (dropna a); [congruence|discriminate]. }
  split; [exact Ilo|]. split; [exact Ihi|]. split; [exact B|].
  now apply (Bd lo hi md B).
Qed.

(** The statistics of a column without any value are all NaN. *)
Lemma column_stats_missing a :
  (forall x, ~ In (Some x) a) ->
  column_stats a = mkStats None None None None None.
Proof.
  intro H.
  assert (E : dropna a = []).
  { destruct (dropna a) as [|x xs] eqn:E; trivial.
    exfalso. apply (H x), dropna_In. rewrite E. now left. }
  unfold column_stats, nanmean, nanmedian, nanvar, nanmin, nanmax.
  now rewrite E.
Qed.

(** Every entry of [calculate_basic_stats] describes the column it is named
    after.  When the column has no value, mean, median, std, min and max are
    all NaN.  When it has one, min and max are values of the column and bound
    every value of the column, the median lies between min and max, and the
    mean is present.  The variance behind [std] is never negative. *)
Theorem basic_stats_consistent (data : FTable) (metric : string) (st : Stats) :
  In (metric, st) (calculate_basic_stats data) ->
  exists col,
    In (metric, col) metrics
    /\ (((forall r, In r data -> col r = None)
         /\ st = mkStats None None None None None)
        \/ (exists lo hi md,
              min st = Some lo /\ max st = Some hi /\ median st = Some md
              /\ mean st <> None
              /\ (exists r, In r data /\ col r = Some lo)
              /\ (exists r, In r data /\ col r = Some hi)
              /\ (forall r x, In r data -> col r = Some x -> lo <= x <= hi)
              /\ lo <= md <= hi))
    /\ forall v, std_squared st = Some v -> 0 <= v.
Proof.
  unfold calculate_basic_stats. intro H.
  apply in_map_iff in H. destruct H as ((name & col) & E & I).
  cbn [fst snd] in E. injection E as -> <-.
  exists col. split; [exact I|]. split; [|apply nanvar_nonneg].
  destruct (dropna (map col data)) as [|x xs] eqn:D.
  - left.
    assert (No : forall y, ~ In (Some y) (map col data)).
    { intros y Hy. apply dropna_In in Hy. now rewrite D in Hy. }
    split; [|now apply column_stats_missing].
    intros r Hr. destruct (col r) as [y|] eqn:Ey; trivial.
    exfalso. apply (No y). rewrite <- Ey. now apply in_map.
  - right.
    assert (Hx : In (Some x) (map col data))
      by (apply dropna_In; rewrite D; now left).
    destruct (column_stats_present _ x Hx)
      as (lo & hi & md & Emin & Emax & Emed & Emean & Ilo & Ihi & B & Bmd).
    exists lo, hi, md.
    split; [exact Emin|]. split; [exact Emax|]. split; [exact Emed|].
    split; [exact Emean|].
    split.
    { apply in_map_iff in Ilo. destruct Ilo as (r & Er & Ir). now exists r. }
    split.
    { apply in_map_iff in Ihi. destruct Ihi as (r & Er & Ir). now exists r. }
    split; [|exact Bmd].
    intros r y Ir Er. apply B. rewrite <- Er. now apply in_map.
Qed.

(** On the example week the quality scores 70, 80 and 70.005 have minimum
    70, median 70.005 and maximum 80. *)
Lemma basic_stats_consistent_witness :
  exists st lo hi md,
    In ("quality_score"%string, st)
       (calculate_basic_stats AnalyzerExamples.week_table)
    /\ min st = Some lo /\ max st = Some hi /\ median st = Some md
    /\ lo == 70 /\ md == 14001#200 /\ hi == 80
    /\ lo <= md <= hi.
Proof.
  destruct (nth_error (calculate_basic_stats AnalyzerExamples.week_table) 1)
    as [[name st]|] eqn:E; [|discriminate E].
  assert (I : In ("quality_score"%string, st)
                 (calculate_basic_stats AnalyzerExamples.week_table)).
  { apply nth_error_In with (n := 1%nat). rewrite E.
    vm_compute in E. injection E as <- _. reflexivity. }
  destruct (basic_stats_consistent _ _ _ I) as (col & _ & [[_ C]|P] & _).
  - exfalso. vm_compute in E. injection E as _ <-. discriminate C.
  - destruct P as (lo & hi & md & Emin & Emax & Emed & _ & _ & _ & _ & B).
    exists st, lo, hi, md. repeat split; trivial; try apply B.
    + vm_compute in E. injection E as _ <-.
      injection Emin as <-. reflexivity.
    + vm_compute in E. injection E as _ <-.
      injection Emed as <-. reflexivity.
    + vm_compute in E. injection E as _ <-.
      injection Emax as <-. reflexivity.
Defined.

End BasicStatsTheorems.

(** ** Quality checks *)

Section QualityTheorems.
Import Transformer TableSpec Analyzer QualityChecks.

Lemma isnull_sum_le {A} (col : list (option A)) :
  (isnull_sum col <= List.length col)%nat.
Proof. unfold isnull_sum. apply filter_length_le. Qed.

Lemma isnull_sum_all {A} (col : list (option A)) :
  Forall (fun c => c = None) col -> isnull_sum col = List.length col.
Proof.
  unfold isnull_sum. induction 1 as [|c l H _ IH]; simpl; trivial.
  rewrite H. simpl. now rewrite IH.
Qed.

Lemma numeric_column_cell name col r :
  In (name, col) numeric_columns -> In (col r) (numeric_cells r).
Proof.
  unfold numeric_columns, numeric_cells. simpl.
  intro H.
  repeat (destruct H as [H|H];
          [injection H as _ <-; simpl; tauto|]).
  destruct H.
Qed.

(** A range of the report: none when the column has no value, else two
    values of the column that bound all the others. *)
Lemma value_ranges_spec (data : Table) name lo hi :
  In (name, (lo, hi)) (value_ranges (perform_quality_checks data)) ->
  exists col,
    In (name, col) numeric_columns
    /\ match lo, hi with
       | Some a, Some b =>
           (exists r, In r data /\ col r = Some a)
           /\ (exists r, In r data /\ col r = Some b)
           /\ forall r x, In r data -> col r = Some x -> a <= x <= b
       | None, None => forall r, In r data -> col r = None
       | _, _ => False
       end.
Proof.
  unfold perform_quality_checks. cbn [value_ranges]. intro H.
  apply in_map_iff in H. destruct H as ((n & col) & E & I).
  cbn [fst snd] in E. injection E as -> <- <-.
  exists col. split; trivial.
  pose proof (nanmin_nanmax_spec (map col data)) as S.
  destruct (nanmin (map col data)) as [a|], (nanmax (map col data)) as [b|];
    trivial.
  - destruct S as (Ia & Ib & B).
    apply in_map_iff in Ia. destruct Ia as (ra & Ea & Ia).
    apply in_map_iff in Ib. destruct Ib as (rb & Eb & Ib).
    split; [now exists ra|]. split; [now exists rb|].
    intros r x Hr Ex. apply B. rewrite <- Ex. now apply in_map.
  - intros r Hr. destruct (col r) as [x|] eqn:Ex; trivial.
    exfalso. apply (S x). rewrite <- Ex. now apply in_map.
Qed.

(** The quality report is consistent with the table it was computed from:
    the record count is the number of rows; no column has more missing
    values than there are rows; for every numeric column either no value is
    present and the range is (NaN, NaN), or min and max are values of the
    column and every value of the column lies between them. *)
Theorem quality_report_consistent (data : Table) :
  let report := perform_quality_checks data in
  record_count report = List.length data
  /\ (forall name missing,
        In (name, missing) (missing_values report) ->
        (missing <= record_count report)%nat)
  /\ (forall name lo hi,
        In (name, (lo, hi)) (value_ranges report) ->
        exists col,
          In (name, col) numeric_columns
          /\ match lo, hi with
             | Some a, Some b =>
                 (exists r, In r data /\ col r = Some a)
                 /\ (exists r, In r data /\ col r = Some b)
                 /\ forall r x, In r data -> col r = Some x -> a <= x <= b
             | None, None => forall r, In r data -> col r = None
             | _, _ => False
             end).
Proof.
  cbn zeta. split; [reflexivity|]. split.
  - unfold perform_quality_checks. cbn [record_count missing_values].
    intros name missing [E|H].
    + injection E as _ <-. etransitivity; [apply isnull_sum_le|].
      now rewrite length_map.
    + apply in_map_iff in H. destruct H as ((n & col) & E & _).
      injection E as _ <-. etransitivity; [apply isnull_sum_le|].
      now rewrite length_map.
  - apply value_ranges_spec.
Qed.

(** After [clean_data] the quality report shows no negative minimum, and
    it counts every date as missing. *)
Theorem quality_report_after_clean (data : Table) :
  let report := perform_quality_checks (clean_data data) in
  (forall name lo hi,
     In (name, (Some lo, hi)) (value_ranges report) -> 0 <= lo)
  /\ In ("date"%string, record_count report) (missing_values report).
Proof.
  cbn zeta. split.
  - intros name lo hi H.
    destruct (value_ranges_spec (clean_data data) name (Some lo) hi H)
      as (col & I & S).
    destruct hi as [b|]; [|destruct S].
    destruct S as ((r & Hr & E) & _).
    apply (clean_data_no_negative data r (col r) lo Hr); trivial.
    now apply (numeric_column_cell name).
  - unfold perform_quality_checks. cbn [record_count missing_values].
    left. f_equal. rewrite isnull_sum_all; [now rewrite length_map|].
    apply Forall_map, clean_data_dates_all_NaT.
Qed.

End QualityTheorems.

Lemma quality_report_consistent_witness :
  (0 <= QualityChecks.record_count
          (QualityChecks.perform_quality_checks TableSpec.unsorted_table))%nat.
Proof.
  apply (proj1 (proj2 (quality_report_consistent TableSpec.unsorted_table))
           "date"%string 0%nat).
  left. reflexivity.
Defined.

Lemma quality_report_after_clean_witness : 0 <= 6.
Proof.
  apply (proj1 (quality_report_after_clean
                  [TableSpec.night_with_negative_quality])
           "sleep_duration"%string 6 (Some 6)).
  left. reflexivity.
Defined.

(** ** Weekly patterns: the days of the result *)

Section WeeklyDays.
Import Transformer Analyzer QualityChecks.

Lemma weekly_days data :
  map wk_day_of_week (analyze_weekly_patterns data) = group_keys data.
Proof.
  unfold analyze_weekly_patterns. rewrite map_map. apply map_id.
Qed.

(** A strictly increasing list of integers between [lo] and [hi] has at most
    [hi - lo + 1] entries. *)
Lemma sorted_bounded_length hi l : forall lo,
  Sorted Z.lt l ->
  (forall k, In k l -> (lo <= k <= hi)%Z) ->
  (Z.of_nat (List.length l) <= Z.max 0 (hi - lo + 1))%Z.
Proof.
  induction l as [|k l IH]; intros lo S B; simpl List.length; [lia|].
  apply Sorted_StronglySorted in S; [|exact Z.lt_trans].
  apply StronglySorted_inv in S. destruct S as [S F].
  apply StronglySorted_Sorted in S.
  rewrite Forall_forall in F.
  specialize (IH (k + 1)%Z S).
  assert (lo <= k <= hi)%Z by (apply B; now left).
  rewrite Nat2Z.inj_succ.
  assert (Z.of_nat (List.length l) <= Z.max 0 (hi - (k + 1) + 1))%Z; [|lia].
  apply IH. intros x Hx.
  specialize (F x Hx). specialize (B x (or_intror Hx)). lia.
Qed.

(** The weekly table has one line per day that occurs in the data, in
    increasing order of the day and without repetition; rows without a day
    are left out. *)
Theorem weekly_patterns_days (data : FTable) :
  let days := map wk_day_of_week (analyze_weekly_patterns data) in
  Sorted Z.lt days
  /\ NoDup days
  /\ forall k, In k days <-> exists r, In r data /\ day_of_week r = Some k.
Proof.
  cbn zeta. rewrite weekly_days.
  split; [apply group_keys_Sorted|].
  split; [apply group_keys_NoDup|].
  apply group_keys_In.
Qed.

(** After [engineer_features] the weekly table has at most seven lines,
    and its days are numbers from 0 to 6. *)
Theorem weekly_patterns_of_features (table : Table) :
  let weekly := analyze_weekly_patterns (engineer_features table) in
  (List.length weekly <= 7)%nat
  /\ forall w, In w weekly -> (0 <= wk_day_of_week w <= 6)%Z.
Proof.
  cbn zeta.
  assert (B : forall k,
             In k (group_keys (engineer_features table)) -> (0 <= k <= 6)%Z).
  { intros k H. apply group_keys_In in H. destruct H as (fr & I & D).
    apply In_nth_error in I. destruct I as (i & I).
    destruct (nth_error_engineer_features table i fr I) as (r & _ & E).
    rewrite E in I. injection I as <-. cbn [day_of_week] in D.
    unfold dayofweek in D. destruct (date r) as [d|]; [|discriminate].
    injection D as <-. pose proof (Z.mod_pos_bound (d + 3) 7). lia. }
  split.
  - rewrite <- (length_map wk_day_of_week), weekly_days.
    pose proof (sorted_bounded_length 6 _ 0
                  (group_keys_Sorted (engineer_features table)) B).
    lia.
  - intros w H. apply B. rewrite <- weekly_days. now apply in_map.
Qed.

(** The shipped pipeline [clean_data().engineer_features()] leaves no date
    behind: every row has a missing weekday and missing bedtime and wake
    timestamps, so the weekly table computed from it is empty. *)
Theorem cleaned_pipeline_has_no_weekdays (data : Table) :
  let features := engineer_features (clean_data data) in
  Forall (fun fr => day_of_week fr = None
                    /\ bedtime_datetime fr = None
                    /\ wake_time_datetime fr = None) features
  /\ analyze_weekly_patterns features = [].
Proof.
  cbn zeta.
  assert (F : Forall (fun fr => day_of_week fr = None
                                /\ bedtime_datetime fr = None
                                /\ wake_time_datetime fr = None)
                (engineer_features (clean_data data))).
  { apply Forall_forall. intros fr I.
    apply In_nth_error in I. destruct I as (i & I).
    destruct (nth_error_engineer_features _ i fr I) as (r & Er & E).
    rewrite E in I. injection I as <-.
    pose proof (clean_data_dates_all_NaT data) as N.
    rewrite Forall_forall in N.
    rewrite (N r (nth_error_In _ _ Er)). now cbn. }
  split; trivial.
  unfold analyze_weekly_patterns.
  assert (K : group_keys (engineer_features (clean_data data)) = []).
  { induction F as [|fr l (D & _) _ IH]; simpl; trivial. now rewrite D. }
  now rewrite K.
Qed.

End WeeklyDays.

(** ** Anomaly detection: thresholds and how many rows are flagged *)

Section AnomalyMore.
Import Transformer Analyzer AnalyzerSpec.

Lemma detect_anomalies_Ok data column t anomalies :
  detect_anomalies data column t = Ok anomalies ->
  exists col,
    float_column column = Ok col
    /\ anomalies
       = filter (fun r => abs_zscore_gt (col r) (np_mean (map col data))
                            (np_var (map col data)) t) data.
Proof.
  intro H. destruct (float_column column) as [col|e] eqn:E.
  - exists col. split; trivial.
    rewrite (detect_anomalies_filter data column col t E) in H.
    now injection H as <-.
  - unfold detect_anomalies in H. rewrite E in H. discriminate H.
Qed.

(** A value flagged at a threshold is flagged at every lower threshold. *)
Lemma abs_zscore_gt_antitone x mn v t1 t2 :
  0 <= v -> t1 <= t2 ->
  abs_zscore_gt x mn (Some v) t2 = true ->
  abs_zscore_gt x mn (Some v) t1 = true.
Proof.
  intros V T. unfold abs_zscore_gt.
  destruct x as [x|], mn as [m|]; trivial.
  destruct (Qeq_bool v 0); trivial.
  rewrite !orb_true_iff, !Qltb_lt.
  intros [H|H]; [left; lra|].
  destruct (Qlt_le_dec t1 0) as [N|P]; [now left|right].
  assert (t1 * t1 <= t2 * t2) by (apply Qmult_le_compat_nonneg; split; lra).
  assert (t1 * t1 * v <= t2 * t2 * v) by (now apply Qmult_le_compat_r).
  lra.
Qed.

Lemma filter_incl_filter {A} (p q : A -> bool) l :
  (forall r, In r l -> q r = true -> p r = true) ->
  incl (filter q l) (filter p l).
Proof.
  intros H r I. apply filter_In in I. destruct I as [I Q].
  apply filter_In. split; trivial. now apply H.
Qed.

(** The anomalies are rows of the table, and raising the threshold can
    only remove anomalies: every row returned for a threshold is returned
    for every lower threshold. *)
Theorem detect_anomalies_thresholds
    (data : FTable) (column : string) (t1 t2 : Q) (a1 a2 : FTable) :
  t1 <= t2 ->
  detect_anomalies data column t1 = Ok a1 ->
  detect_anomalies data column t2 = Ok a2 ->
  incl a2 a1
  /\ incl a1 data
  /\ (List.length a1 <= List.length data)%nat.
Proof.
  intros T H1 H2.
  apply detect_anomalies_Ok in H1, H2.
  destruct H1 as (col & E1 & ->), H2 as (col' & E2 & ->).
  rewrite E1 in E2. injection E2 as <-.
  split; [|split].
  - apply filter_incl_filter. intros r _.
    destruct (np_var (map col data)) as [v|] eqn:V.
    + apply abs_zscore_gt_antitone; trivial. now apply np_var_nonneg in V.
    + unfold abs_zscore_gt.
      destruct (col r), (np_mean (map col data)); trivial.
  - apply incl_filter.
  - apply filter_length_le.
Qed.

Lemma detect_anomalies_thresholds_witness :
  exists a1 a2,
    detect_anomalies AnalyzerExamples.week_table "quality_score" (1#2) = Ok a1
    /\ detect_anomalies AnalyzerExamples.week_table "quality_score" 1 = Ok a2
    /\ incl a2 a1.
Proof.
  destruct (detect_anomalies AnalyzerExamples.week_table "quality_score"
              (1#2)) as [a1|e] eqn:E1; [|vm_compute in E1; discriminate E1].
  destruct (detect_anomalies AnalyzerExamples.week_table "quality_score" 1)
    as [a2|e] eqn:E2; [|vm_compute in E2; discriminate E2].
  exists a1, a2. split; [reflexivity|]. split; [reflexivity|].
  apply (detect_anomalies_thresholds AnalyzerExamples.week_table
           "quality_score" (1#2) 1 a1 a2); trivial.
  apply Qle_bool_iff. reflexivity.
Defined.

End AnomalyMore.

Section AnomalyCount.
Import Transformer Analyzer AnalyzerSpec.

Lemma forallb_present (col : FRow -> cell) data :
  forallb (fun c => match c with Some _ => true | None => false end)
          (map col data) = true ->
  Forall (fun r => col r <> None) data.
Proof.
  induction data as [|r rest IH]; simpl; intro H; constructor.
  - destruct (col r); [discriminate|discriminate H].
  - apply IH. now destruct (col r).
Qed.

(** With a mean and a variance, the squared deviations of the column add up
    to the variance times the number of rows. *)
Lemma np_var_sum (col : FRow -> cell) data m v :
  np_mean (map col data) = Some m ->
  np_var (map col data) = Some v ->
  Forall (fun r => col r <> None) data
  /\ data <> []
  /\ Qsum (map (fun r => (value (col r) - m) * (value (col r) - m)) data)
     == v * inject_Z (Z.of_nat (List.length data)).
Proof.
  intros M V. unfold np_var in V. rewrite M in V.
  unfold np_mean in M, V.
  match type of M with
  | context [forallb ?f ?l] => destruct (forallb f l) eqn:P; [|discriminate]
  end.
  apply forallb_present in P.
  assert (NE : data <> []).
  { intro N. subst data. discriminate M. }
  split; trivial. split; trivial.
  match type of V with
  | context [forallb ?f ?l] => destruct (forallb f l); [|discriminate]
  end.
  rewrite map_map in V.
  assert (P' : Forall (fun r => cell_map (fun x => (x - m) * (x - m)) (col r)
                               <> None) data).
  { eapply Forall_impl; [|exact P]. intros r H. cbv beta in H.
    destruct (col r); [discriminate|congruence]. }
  rewrite (nanmean_present _ data NE P') in V.
  assert (Ev : Qsum (map (fun r => value (cell_map (fun x => (x - m) * (x - m))
                                          (col r))) data)
               / inject_Z (Z.of_nat (List.length data)) = v) by congruence.
  rewrite <- Ev.
  pose proof (Qlen_pos data NE) as L.
  rewrite (Qsum_map_ext
             (fun r => (value (col r) - m) * (value (col r) - m))
             (fun r => value (cell_map (fun x => (x - m) * (x - m)) (col r)))).
  - field. lra.
  - intros r I. rewrite Forall_forall in P. specialize (P r I).
    destruct (col r); [reflexivity|congruence].
Qed.

Lemma Qsum_filter_le {A} (f : A -> Q) (p : A -> bool) l :
  (forall r, 0 <= f r) ->
  Qsum (map f (filter p l)) <= Qsum (map f l).
Proof.
  intro N. induction l as [|r l IH]; simpl; [lra|].
  specialize (N r). destruct (p r); simpl; lra.
Qed.

Lemma Qsum_above {A} (f : A -> Q) (c : Q) l :
  l <> [] ->
  (forall r, In r l -> c < f r) ->
  inject_Z (Z.of_nat (List.length l)) * c < Qsum (map f l).
Proof.
  induction l as [|r l IH]; intros NE H; [congruence|].
  cbn [map Qsum List.length]. rewrite Nat2Z.inj_succ. unfold Z.succ.
  rewrite inject_Z_plus. change (inject_Z 1) with 1.
  assert (c < f r) by (apply H; now left).
  destruct l as [|r' l'].
  - simpl. change (inject_Z 0) with 0. lra.
  - assert (inject_Z (Z.of_nat (List.length (r' :: l'))) * c
            < Qsum (map f (r' :: l'))).
    { apply IH; [discriminate|]. intros x Hx. apply H. now right. }
    lra.
Qed.

(** Only a minority can be anomalous: for a positive threshold [t] and a
    non-empty table, the number of rows returned times [t * t] is less than
    the number of rows.  With the default threshold 2, fewer than a quarter
    of the rows are returned. *)
Theorem detect_anomalies_minority
    (data : FTable) (column : string) (t : Q) (anomalies : FTable) :
  0 < t ->
  data <> [] ->
  detect_anomalies data column t = Ok anomalies ->
  inject_Z (Z.of_nat (List.length anomalies)) * (t * t)
  < inject_Z (Z.of_nat (List.length data)).
Proof.
  intros T NE H.
  apply detect_anomalies_Ok in H. destruct H as (col & _ & ->).
  pose proof (Qlen_pos data NE) as N.
  set (keep := fun r => abs_zscore_gt (col r) (np_mean (map col data))
                          (np_var (map col data)) t).
  assert (Empty : filter keep data = [] ->
                  inject_Z (Z.of_nat (List.length (filter keep data)))
                  * (t * t) < inject_Z (Z.of_nat (List.length data))).
  { intros ->. simpl. change (inject_Z 0) with 0. lra. }
  destruct (np_mean (map col data)) as [m|] eqn:M.
  2:{ apply Empty, filter_none. intro r. unfold keep, abs_zscore_gt.
      now destruct (col r). }
  destruct (np_var (map col data)) as [v|] eqn:V.
  2:{ apply Empty, filter_none. intro r. unfold keep, abs_zscore_gt.
      now destruct (col r). }
  destruct (Qeq_bool v 0) eqn:Z.
  { apply Empty, filter_none. intro r. unfold keep, abs_zscore_gt.
    rewrite Z. now destruct (col r). }
  destruct (filter keep data) as [|r0 rest] eqn:F; [now apply Empty|].
  rewrite <- F.
  destruct (np_var_sum col data m v M V) as (P & _ & S).
  pose proof (np_var_nonneg _ _ V) as V0.
  assert (Vpos : 0 < v).
  { destruct (Qlt_le_dec 0 v) as [L|L]; trivial.
    assert (v == 0) as C by (now apply Qle_antisym).
    apply Qeq_bool_iff in C. congruence. }
  set (d2 := fun r => (value (col r) - m) * (value (col r) - m)) in *.
  assert (Lo : inject_Z (Z.of_nat (List.length (filter keep data)))
               * (t * t * v) < Qsum (map d2 (filter keep data))).
  { apply Qsum_above; [now rewrite F|].
    intros r I. apply filter_In in I. destruct I as [I K].
    unfold keep, abs_zscore_gt in K. rewrite Z in K.
    rewrite Forall_forall in P. specialize (P r I).
    unfold d2. destruct (col r) as [x|]; [|congruence].
    apply orb_true_iff in K. destruct K as [K|K].
    - apply Qltb_lt in K. lra.
    - now apply Qltb_lt in K. }
  assert (Hi : Qsum (map d2 (filter keep data)) <= Qsum (map d2 data)).
  { apply Qsum_filter_le. intro r. apply Qsquare_nonneg. }
  rewrite S in Hi.
  set (k := inject_Z (Z.of_nat (List.length (filter keep data)))) in *.
  set (n := inject_Z (Z.of_nat (List.length data))) in *.
  assert (E : k * (t * t * v) == k * (t * t) * v) by ring.
  rewrite E in Lo.
  assert (C : k * (t * t) * v < n * v) by lra.
  setoid_replace (n * v) with (v * n) in C by ring.
  setoid_replace (k * (t * t) * v) with (v * (k * (t * t))) in C by ring.
  destruct (Qlt_le_dec (k * (t * t)) n) as [L|L]; trivial.
  exfalso. apply (Qmult_le_l _ _ v Vpos) in L. lra.
Qed.

Lemma detect_anomalies_minority_witness :
  exists anomalies,
    detect_anomalies AnalyzerExamples.week_table "quality_score" 1
    = Ok anomalies
    /\ inject_Z (Z.of_nat (List.length anomalies)) * (1 * 1) < inject_Z 3.
Proof.
  destruct (detect_anomalies AnalyzerExamples.week_table "quality_score" 1)
    as [a|e] eqn:E; [|vm_compute in E; discriminate E].
  exists a. split; [reflexivity|].
  apply (detect_anomalies_minority AnalyzerExamples.week_table
           "quality_score" 1 a); trivial; [reflexivity|discriminate].
Defined.

End AnomalyCount.

(** ** Trends *)

Section TrendFacts.
Import Transformer Analyzer.

Lemma rolling_mean_length w col :
  List.length (rolling_mean w col) = List.length col.
Proof. unfold rolling_mean. now rewrite length_map, length_seq. Qed.

Lemma rolling_mean_nth w col i :
  (i < List.length col)%nat ->
  nth i (rolling_mean w col) None
  = if (i + 1 <? w)%nat then None else np_mean (window_at w i col).
Proof.
  intro H. unfold rolling_mean.
  apply nth_error_nth. now rewrite nth_error_map_seq.
Qed.

(** A full window holds [window] cells of the column. *)
Lemma window_at_full {A} w i (col : list A) :
  (w <= i + 1)%nat -> (i < List.length col)%nat ->
  List.length (window_at w i col) = w /\ incl (window_at w i col) col.
Proof.
  intros W I. unfold window_at. split.
  - rewrite length_firstn, length_skipn. lia.
  - intros x H.
    rewrite <- (firstn_skipn (i + 1 - w) col). apply in_or_app. right.
    rewrite <- (firstn_skipn w (skipn (i + 1 - w) col)).
    apply in_or_app. now left.
Qed.

(** A moving average over a full window of present values is present and
    lies between any bounds on the column. *)
Lemma rolling_mean_full w (col : list cell) i lo hi :
  (1 <= w <= i + 1)%nat -> (i < List.length col)%nat ->
  (forall c, In c col -> exists x, c = Some x /\ lo <= x <= hi) ->
  exists m, nth i (rolling_mean w col) None = Some m /\ lo <= m <= hi.
Proof.
  intros W I B. rewrite rolling_mean_nth by trivial.
  assert (E : (i + 1 <? w)%nat = false) by (apply Nat.ltb_ge; lia).
  rewrite E.
  destruct (window_at_full w i col) as [L Incl]; [lia|trivial|].
  set (win := window_at w i col) in *.
  assert (P : forallb (fun c : option Q =>
                         match c with Some _ => true | None => false end)
                win = true).
  { apply forallb_forall. intros c H.
    destruct (B c (Incl c H)) as (x & -> & _). reflexivity. }
  unfold np_mean. rewrite P.
  assert (Bw : forall x, In (Some x) win -> lo <= x <= hi).
  { intros x H. destruct (B _ (Incl _ H)) as (y & Ey & R).
    injection Ey as ->. exact R. }
  destruct (nanmean win) as [m|] eqn:M.
  - exists m. split; trivial. now apply (nanmean_bounds lo hi win).
  - exfalso. unfold nanmean in M.
    destruct win as [|c win'] eqn:Ew; [simpl in L; lia|].
    destruct (B c (Incl c (or_introl eq_refl))) as (x & -> & _).
    simpl in M. discriminate M.
Qed.

End TrendFacts.

Section TrendTheorems.
Import Transformer Analyzer.

(** From row [window - 1] on, when every value of the three metrics is
    present and lies between [lo] and [hi], each moving average is present
    and lies between [lo] and [hi] too. *)
Theorem sleep_trends_within_range
    (data : FTable) (window : Z) (rows : list TrendRow) (lo hi : Q) :
  (1 <= window)%Z ->
  calculate_sleep_trends data window = Ok rows ->
  (forall r, In r data ->
     exists sd qs dp,
       sleep_duration (raw r) = Some sd /\ lo <= sd <= hi
       /\ quality_score (raw r) = Some qs /\ lo <= qs <= hi
       /\ deep_sleep_pct (raw r) = Some dp /\ lo <= dp <= hi) ->
  forall i row,
    nth_error rows i = Some row ->
    (window <= Z.of_nat i + 1)%Z ->
    exists a b c,
      sleep_duration_ma row = Some a /\ lo <= a <= hi
      /\ quality_score_ma row = Some b /\ lo <= b <= hi
      /\ deep_sleep_pct_ma row = Some c /\ lo <= c <= hi.
Proof.
  intros W H B i row Hi Late.
  unfold calculate_sleep_trends in H.
  assert (E : (window <? 0)%Z = false) by (apply Z.ltb_ge; lia).
  rewrite E in H. injection H as <-.
  assert (I : (i < List.length data)%nat).
  { assert (N : nth_error
                  (map (fun i =>
                          {| sleep_duration_ma :=
                               nth i (rolling_mean (Z.to_nat window)
                                        (map (fun r => sleep_duration (raw r))
                                             data)) None;
                             quality_score_ma :=
                               nth i (rolling_mean (Z.to_nat window)
                                        (map (fun r => quality_score (raw r))
                                             data)) None;
                             deep_sleep_pct_ma :=
                               nth i (rolling_mean (Z.to_nat window)
                                        (map (fun r => deep_sleep_pct (raw r))
                                             data)) None |})
                       (seq 0 (List.length data))) i <> None)
      by congruence.
    apply nth_error_Some in N. now rewrite length_map, length_seq in N. }
  rewrite nth_error_map_seq in Hi by trivial. injection Hi as <-.
  cbn [sleep_duration_ma quality_score_ma deep_sleep_pct_ma].
  assert (Full : forall col : FRow -> cell,
            (forall r, In r data -> exists x, col r = Some x /\ lo <= x <= hi) ->
            exists m,
              nth i (rolling_mean (Z.to_nat window) (map col data)) None
              = Some m /\ lo <= m <= hi).
  { intros col Bc. apply rolling_mean_full.
    - lia.
    - now rewrite length_map.
    - intros c Hc. apply in_map_iff in Hc. destruct Hc as (r & <- & Hr).
      now apply Bc. }
  destruct (Full (fun r => sleep_duration (raw r))) as (a & Ea & Ra).
  { intros r Hr. destruct (B r Hr) as (sd & _ & _ & S & R & _). now exists sd. }
  destruct (Full (fun r => quality_score (raw r))) as (b & Eb & Rb).
  { intros r Hr. destruct (B r Hr) as (_ & qs & _ & _ & _ & S & R & _).
    now exists qs. }
  destruct (Full (fun r => deep_sleep_pct (raw r))) as (c & Ec & Rc).
  { intros r Hr. destruct (B r Hr) as (_ & _ & dp & _ & _ & _ & _ & S & R).
    now exists dp. }
  exists a, b, c. repeat split; trivial; tauto.
Qed.

End TrendTheorems.

Lemma sleep_trends_within_range_witness :
  exists rows row b,
    Analyzer.calculate_sleep_trends AnalyzerExamples.week_table 2 = Ok rows
    /\ nth_error rows 2 = Some row
    /\ Analyzer.quality_score_ma row = Some b
    /\ 0 <= b <= 100.
Proof.
  destruct (Analyzer.calculate_sleep_trends AnalyzerExamples.week_table 2)
    as [rows|e] eqn:E; [|vm_compute in E; discriminate E].
  destruct (nth_error rows 2) as [row|] eqn:R.
  2:{ exfalso. vm_compute in E. injection E as <-. discriminate R. }
  assert (In100 :
            forall r, In r AnalyzerExamples.week_table ->
              exists sd qs dp,
                sleep_duration (Transformer.raw r) = Some sd /\ 0 <= sd <= 100
                /\ quality_score (Transformer.raw r) = Some qs
                /\ 0 <= qs <= 100
                /\ deep_sleep_pct (Transformer.raw r) = Some dp
                /\ 0 <= dp <= 100).
  { intros r [<-|[<-|[<-|[]]]];
      do 3 eexists;
      (split; [reflexivity|]); (split; [split; discriminate|]);
      (split; [reflexivity|]); (split; [split; discriminate|]);
      (split; [reflexivity|]); split; discriminate. }
  destruct (sleep_trends_within_range AnalyzerExamples.week_table 2 rows
              0 100 ltac:(lia) E In100 2%nat row R ltac:(lia))
    as (a & b & c & _ & _ & Eb & Rb & _).
  exists rows, row, b. repeat split; trivial; apply Rb.
Defined.

Section TrendLabel.
Import Transformer Analyzer.

Lemma tail_app_five {A} (older recent : list A) :
  List.length recent = 5%nat -> tail (older ++ recent) = recent.
Proof.
  intro L. unfold tail. rewrite length_app, L.
  replace (List.length older + 5 - 5)%nat with (List.length older) by lia.
  rewrite skipn_app, skipn_all, Nat.sub_diag. reflexivity.
Qed.

(** [is_monotonic_increasing] holds exactly for a column without missing
    values whose values never decrease from one row to the next. *)
Lemma is_monotonic_increasing_spec l :
  is_monotonic_increasing l = true
  <-> exists vals, l = map Some vals /\ Sorted Qle vals.
Proof.
  induction l as [|c l IH].
  - split; [|reflexivity]. intros _. exists []. split; [reflexivity|constructor].
  - cbn [is_monotonic_increasing].
    destruct c as [a|].
    2:{ split; [discriminate|]. intros ([|v vals] & E & _); discriminate E. }
    destruct l as [|[b|] l'].
    + split; [|reflexivity]. intros _. exists [a].
      split; [reflexivity|repeat constructor].
    + rewrite andb_true_iff, IH. split.
      * intros (Le & vals & E & S). exists (a :: vals).
        split; [now rewrite E|].
        constructor; trivial.
        destruct vals as [|v vals']; [discriminate E|].
        injection E as -> _. constructor. now apply Qle_bool_iff.
      * intros ([|v [|w vals]] & E & S); try discriminate E.
        injection E as -> -> E.
        apply Sorted_inv in S. destruct S as [S H]. apply HdRel_inv in H.
        split; [now apply Qle_bool_iff|].
        exists (w :: vals). split; [now rewrite E|exact S].
    + split; [discriminate|].
      intros ([|v [|w vals]] & E & _); discriminate E.
Qed.

(** The trend label looks at the last five quality scores only: it is
    "improving" exactly when none of them is missing and none is below the
    one before it, and "varying" otherwise; rows older than the last five do
    not change it. *)
Theorem sleep_quality_trend_last_five (older recent : FTable) :
  (sleep_quality_trend recent = "improving"%string
   \/ sleep_quality_trend recent = "varying"%string)
  /\ (sleep_quality_trend recent = "improving"%string
      <-> exists vals,
            tail (map (fun r => quality_score (raw r)) recent) = map Some vals
            /\ Sorted Qle vals)
  /\ (List.length recent = 5%nat ->
      sleep_quality_trend (older ++ recent) = sleep_quality_trend recent).
Proof.
  unfold sleep_quality_trend. split; [|split].
  - destruct (is_monotonic_increasing _); auto.
  - rewrite <- is_monotonic_increasing_spec.
    destruct (is_monotonic_increasing _); split; trivial; discriminate.
  - intro L. rewrite map_app, tail_app_five by now rewrite length_map.
    rewrite <- (app_nil_l (map _ recent)) at 2.
    now rewrite tail_app_five by now rewrite length_map.
Qed.

End TrendLabel.

Lemma sleep_quality_trend_last_five_witness :
  Analyzer.sleep_quality_trend TrendExamples.eight_nights
  = Analyzer.sleep_quality_trend TrendExamples.five_nights.
Proof.
  apply (proj2 (proj2 (sleep_quality_trend_last_five
                         AnalyzerExamples.week_table
                         TrendExamples.five_nights))).
  reflexivity.
Defined.

Lemma weekly_patterns_of_features_witness :
  exists w,
    In w (Analyzer.analyze_weekly_patterns
            (Transformer.engineer_features TableSpec.sorted_table))
    /\ (0 <= Analyzer.wk_day_of_week w <= 6)%Z.
Proof.
  destruct (Analyzer.analyze_weekly_patterns
              (Transformer.engineer_features TableSpec.sorted_table))
    as [|w rest] eqn:E; [vm_compute in E; discriminate E|].
  exists w. split; [now left|].
  apply (proj2 (weekly_patterns_of_features TableSpec.sorted_table)).
  rewrite E. now left.
Defined.
